(** * Civic issue reporting backend

    A shallow embedding of the Express handlers of the backend
    (controllers/issue.controller.js, the user controller, the issue router,
    middleware/auth.middleware.js) and of the client helper
    utils/pagination.js, with the properties of the REST contract proved
    about them.

    The handlers are [async] functions over a shared Prisma client: they are
    embedded in a small state-and-exception monad [Js] over a [World] that
    holds the database tables, a logical clock and the chronological trace of
    the writes, mail attempts and console messages a request produces. *)

From stdpp Require Import gmap strings list fin_maps sorting.
From Stdlib Require Import ZArith Floats Ascii.

Local Open Scope string_scope.
Local Open Scope Z_scope.

(** ** Data model

    Rows as the controllers read and write them.  Identifiers, roles,
    statuses and categories are JavaScript strings and compared with
    [===] / [!==]; coordinates are JavaScript numbers (binary64). *)

Record User := mkUser {
  user_id : string;
  user_name : string;
  user_email : string;
  user_password : string;
  user_role : string;
  user_profilePicture : option string;
}.

Record Issue := mkIssue {
  issue_id : string;
  issue_title : string;
  issue_description : string;
  issue_location : string;
  issue_latitude : option float;
  issue_longitude : option float;
  issue_category : string;
  issue_status : string;
  issue_upvotes : Z;
  issue_images : list string;
  issue_reporterId : string;
  issue_createdAt : nat;
}.

Record Comment := mkComment {
  comment_id : string;
  comment_content : string;
  comment_issueId : string;
  comment_authorId : string;
  comment_createdAt : nat;
}.

Record Db := mkDb {
  users : gmap string User;
  issues : gmap string Issue;
  comments : gmap string Comment;
}.

(** A thrown JavaScript error: the handlers only ever look at [error.name]. *)
Record Error := mkError { error_name : string; error_message : string }.

(** The three calls into [../mailer]. *)
Inductive Mail :=
| IssueCreatedEmail (to name : string) (issue : Issue)
| StatusUpdateEmail (to name : string) (issue : Issue) (oldStatus newStatus : string)
| AdminNotificationEmail (issue : Issue).

(** What a request leaves behind, in the order it happens. *)
Inductive Event :=
| IssueInserted (id : string)
| IssueWritten (id : string)
| IssueRemoved (id : string)
| CommentsRemovedOf (issueId : string)
| CommentInserted (id : string)
| UserWritten (id : string)
| MailAttempt (m : Mail)
| ConsoleError (label : string) (e : Error).

Record World := mkWorld {
  w_db : Db;
  w_now : nat;
  w_trace : list Event;
}.

(** ** Responses *)

(** [req.user], as attached by the authentication middleware
    ([select: { id, email, name, role }]). *)
Record ReqUser := mkReqUser {
  req_id : string;
  req_email : string;
  req_name : string;
  req_role : string;
}.

(** [select: { id, name, email }] *)
Record Reporter := mkReporter {
  reporter_id : string;
  reporter_name : string;
  reporter_email : string;
}.

(** [select: { id, name, email, role, profilePicture }] *)
Record PublicUser := mkPublicUser {
  pu_id : string;
  pu_name : string;
  pu_email : string;
  pu_role : string;
  pu_profilePicture : option string;
}.

(** A JavaScript number as it reaches [JSON.stringify] in the pagination
    block: an integer, or the result of a division by zero. *)
Inductive JsNumber := Num (z : Z) | Infinity | NaN.

Record Pagination := mkPagination {
  pg_total : nat;
  pg_page : Z;
  pg_limit : Z;
  pg_pages : JsNumber;
}.

(** An issue row of the list endpoint: the row, its reporter and
    [_count.comments]. *)
Record IssueRow := mkIssueRow {
  row_issue : Issue;
  row_reporter : option PublicUser;
  row_comments : nat;
}.

Inductive Json :=
| JError (message : string)
| JValidation (errors : list string)
| JMessage (message : string)
| JIssue (issue : Issue)
| JIssueWithReporter (issue : Issue) (reporter : option Reporter)
| JIssueList (results : nat) (pagination : Pagination) (rows : list IssueRow)
| JIssueDetail (issue : Issue) (reporter : option PublicUser)
    (comments : list (Comment * option PublicUser))
| JIssuesOf (results : nat) (rows : list (Issue * nat))
| JComment (comment : Comment) (author : option PublicUser)
| JCommentList (results : nat) (comments : list (Comment * option PublicUser))
| JUser (user : PublicUser) (issueCount commentCount : option nat)
| JUserList (results : nat) (rows : list (PublicUser * nat)).

(** How a request ends: a response is sent, or an error is passed to the
    error handler ([next(error)]). *)
Inductive Outcome :=
| Sent (status : Z) (body : Json)
| NextError (e : Error).

(** ** The handler monad

    A computation either yields a value, or leaves the function early
    ([return res.status(..).json(..)]), or throws. *)

Inductive Signal :=
| Return (o : Outcome)
| Throw (e : Error).

Definition Js (A : Type) : Type := World → World * (Signal + A).

Definition js_ret {A} (a : A) : Js A := λ w, (w, inr a).

Definition js_bind {A B} (m : Js A) (k : A → Js B) : Js B :=
  λ w, match m w with
       | (w', inl s) => (w', inl s)
       | (w', inr a) => k a w'
       end.

#[global] Instance Js_ret : MRet Js := @js_ret.
#[global] Instance Js_bind : MBind Js := λ A B k m, js_bind m k.

Definition throw {A} (e : Error) : Js A := λ w, (w, inl (Throw e)).

(** [return res.status(s).json(b)] *)
Definition return_ {A} (o : Outcome) : Js A := λ w, (w, inl (Return o)).

(** [try { m } catch (error) { h error }]: a [return] inside the block is
    not caught. *)
Definition try_catch {A} (m : Js A) (h : Error → Js A) : Js A :=
  λ w, match m w with
       | (w', inl (Throw e)) => h e w'
       | r => r
       end.

Definition emit (e : Event) : Js unit :=
  λ w, (mkWorld (w_db w) (w_now w) (w_trace w ++ [e]), inr ()).

Definition get_db : Js Db := λ w, (w, inr (w_db w)).

Definition put_db (d : Db) : Js unit :=
  λ w, (mkWorld d (w_now w) (w_trace w), inr ()).

(** [now()], as used for the [createdAt] defaults: the clock advances. *)
Definition tick : Js nat :=
  λ w, (mkWorld (w_db w) (S (w_now w)) (w_trace w), inr (w_now w)).

(** [console.error(label, error)] *)
Definition console_error (label : string) (e : Error) : Js unit :=
  emit (ConsoleError label e).

(** ** The persistence layer

    The calls of the Prisma client the controllers make, on the three
    tables of [Db].  The client checks the arguments of a call against the
    schema before it touches the database and throws on a mismatch; the
    database enforces the foreign keys on insertion. *)

Module Prisma.

(** Modelled from the spec: prisma/schema.prisma is not available.
    The closed enum of the Issue status column (spec, data model; the same
    five values are listed in the router's API documentation). *)
Definition Status : list string :=
  ["REPORTED"; "UNDER_REVIEW"; "IN_PROGRESS"; "RESOLVED"; "CLOSED"].

(** Modelled from the spec: prisma/schema.prisma is not available.
    The closed enum of the Issue category column (the same eight values the
    router validates on creation). *)
Definition Category : list string :=
  ["ROADS"; "WATER"; "ELECTRICITY"; "SANITATION"; "PUBLIC_SAFETY";
   "ENVIRONMENT"; "PUBLIC_PROPERTY"; "OTHER"].

(** Modelled from the spec: prisma/schema.prisma is not available.
    A new issue starts in status REPORTED (spec, Issue lifecycle: initial
    status = REPORTED); the handler passes no status to [create]. *)
Definition defaultStatus : string := "REPORTED".

(** Modelled from the spec: prisma/schema.prisma is not available.
    The upvote counter of a new issue (spec: a non-negative integer
    incremented by the upvote operation); its storage width is not
    specified and the counter is unbounded here. *)
Definition defaultUpvotes : Z := 0.

Definition validationError : Error :=
  mkError "PrismaClientValidationError" "Invalid value for argument".

Definition recordNotFound : Error :=
  mkError "PrismaClientKnownRequestError" "P2025".

Definition foreignKeyViolation : Error :=
  mkError "PrismaClientKnownRequestError" "P2003".

(** An optional enum argument is accepted when absent or a member. *)
Definition enumOk (enum : list string) (v : option string) : bool :=
  match v with
  | None => true
  | Some s => bool_decide (s ∈ enum)
  end.

(** [where: filter] of the list endpoint: the filter object holds a key
    only when the handler put it there. *)
Record IssueWhere := mkIssueWhere {
  where_status : option string;
  where_category : option string;
}.

Definition matches (f : IssueWhere) (i : Issue) : bool :=
  match where_status f with
  | None => true
  | Some s => bool_decide (issue_status i = s)
  end &&
  match where_category f with
  | None => true
  | Some c => bool_decide (issue_category i = c)
  end.

(** [orderBy: { createdAt: 'desc' }] *)
Definition newer (a b : Issue) : Prop := (issue_createdAt b ≤ issue_createdAt a)%nat.

#[global] Instance newer_dec a b : Decision (newer a b).
Proof. unfold newer. apply _. Defined.

Definition selected (f : IssueWhere) (d : Db) : list Issue :=
  merge_sort newer (filter (λ i, matches f i = true) (map_to_list (issues d)).*2).

(** [skip] and [take] of [findMany], as the Prisma client documents them:
    a non-negative [take] returns at most that many rows after skipping
    [skip] rows; a negative [take] counts from the end of the ordering. *)
Definition window {A} (skip take : Z) (l : list A) : list A :=
  if 0 <=? take
  then firstn (Z.to_nat take) (skipn (Z.to_nat skip) l)
  else rev (firstn (Z.to_nat (- take)) (skipn (Z.to_nat skip) (rev l))).

Definition publicUser (u : User) : PublicUser :=
  mkPublicUser (user_id u) (user_name u) (user_email u) (user_role u)
               (user_profilePicture u).

Definition reporterOf (u : User) : Reporter :=
  mkReporter (user_id u) (user_name u) (user_email u).

Definition commentCount (d : Db) (issueId : string) : nat :=
  size (filter (λ kv, comment_issueId kv.2 = issueId) (comments d)).

Definition issueCountOf (d : Db) (userId : string) : nat :=
  size (filter (λ kv, issue_reporterId kv.2 = userId) (issues d)).

Definition commentCountOf (d : Db) (userId : string) : nat :=
  size (filter (λ kv, comment_authorId kv.2 = userId) (comments d)).

Definition row (d : Db) (i : Issue) : IssueRow :=
  mkIssueRow i (publicUser <$> users d !! issue_reporterId i)
             (commentCount d (issue_id i)).

(** [prisma.issue.findMany({ where, include, orderBy, skip, take })] *)
Definition issue_findMany (f : IssueWhere) (skip take : Z) : Js (list IssueRow) :=
  d ← get_db;
  if negb (enumOk Status (where_status f) && enumOk Category (where_category f))
  then throw validationError
  else if skip <? 0 then throw validationError
  else mret (row d <$> window skip take (selected f d)).

(** [prisma.issue.count({ where })] *)
Definition issue_count (f : IssueWhere) : Js nat :=
  d ← get_db;
  if negb (enumOk Status (where_status f) && enumOk Category (where_category f))
  then throw validationError
  else mret (length (selected f d)).

(** [prisma.issue.findUnique({ where: { id } })] *)
Definition issue_findUnique (id : string) : Js (option Issue) :=
  d ← get_db; mret (issues d !! id).

(** [prisma.user.findUnique({ where: { id } })] *)
Definition user_findUnique (id : string) : Js (option User) :=
  d ← get_db; mret (users d !! id).

(** [data] of [prisma.issue.create]: a property holding [undefined] is an
    absent property. *)
Record IssueCreate := mkIssueCreate {
  create_title : option string;
  create_description : option string;
  create_location : option string;
  create_latitude : option float;
  create_longitude : option float;
  create_category : option string;
  create_images : list string;
  create_reporterId : string;
}.

(** [prisma.issue.create({ data, include: { reporter } })]: the required
    columns must be given, the category must be in its enum and the reporter
    must exist; the identifier, the creation time, the status and the upvote
    counter take their defaults. *)
Definition issue_create (data : IssueCreate) : Js (Issue * option Reporter) :=
  d ← get_db;
  match create_title data, create_description data, create_location data,
        create_category data with
  | Some title, Some description, Some location, Some category =>
      if negb (bool_decide (category ∈ Category)) then throw validationError
      else match users d !! create_reporterId data with
      | None => throw foreignKeyViolation
      | Some u =>
          now ← tick;
          let id := fresh (dom (issues d)) in
          let i := mkIssue id title description location
                     (create_latitude data) (create_longitude data)
                     category defaultStatus defaultUpvotes
                     (create_images data) (create_reporterId data) now in
          put_db (mkDb (users d) (<[id := i]> (issues d)) (comments d));;
          emit (IssueInserted id);;
          mret (i, Some (reporterOf u))
      end
  | _, _, _, _ => throw validationError
  end.

(** [data] of [prisma.issue.update]. *)
Record IssueUpdate := mkIssueUpdate {
  update_title : option string;
  update_description : option string;
  update_status : option string;
  update_category : option string;
  update_upvotes_increment : option Z;
}.

Definition or_keep {A} (new : option A) (old : A) : A :=
  match new with Some v => v | None => old end.

Definition applyUpdate (data : IssueUpdate) (i : Issue) : Issue :=
  mkIssue (issue_id i)
    (or_keep (update_title data) (issue_title i))
    (or_keep (update_description data) (issue_description i))
    (issue_location i) (issue_latitude i) (issue_longitude i)
    (or_keep (update_category data) (issue_category i))
    (or_keep (update_status data) (issue_status i))
    (match update_upvotes_increment data with
     | Some n => issue_upvotes i + n
     | None => issue_upvotes i
     end)
    (issue_images i) (issue_reporterId i) (issue_createdAt i).

(** [prisma.issue.update({ where: { id }, data, include: { reporter } })]:
    an absent property leaves its column alone; a status or category
    outside its enum is refused before anything is written. *)
Definition issue_update (id : string) (data : IssueUpdate)
  : Js (Issue * option Reporter) :=
  d ← get_db;
  if negb (enumOk Status (update_status data) && enumOk Category (update_category data))
  then throw validationError
  else match issues d !! id with
  | None => throw recordNotFound
  | Some old =>
      let i := applyUpdate data old in
      put_db (mkDb (users d) (<[id := i]> (issues d)) (comments d));;
      emit (IssueWritten id);;
      mret (i, reporterOf <$> users d !! issue_reporterId i)
  end.

(** [prisma.issue.delete({ where: { id } })] *)
Definition issue_delete (id : string) : Js unit :=
  d ← get_db;
  match issues d !! id with
  | None => throw recordNotFound
  | Some _ =>
      put_db (mkDb (users d) (delete id (issues d)) (comments d));;
      emit (IssueRemoved id)
  end.

(** [prisma.comment.deleteMany({ where: { issueId } })] *)
Definition comment_deleteMany (issueId : string) : Js unit :=
  d ← get_db;
  put_db (mkDb (users d) (issues d)
               (filter (λ kv, comment_issueId kv.2 ≠ issueId) (comments d)));;
  emit (CommentsRemovedOf issueId).

(** [prisma.comment.create({ data, include: { author } })] *)
Definition comment_create (content : option string) (issueId authorId : string)
  : Js (Comment * option PublicUser) :=
  d ← get_db;
  match content with
  | None => throw validationError
  | Some text =>
      match issues d !! issueId, users d !! authorId with
      | Some _, Some u =>
          now ← tick;
          let id := fresh (dom (comments d)) in
          let c := mkComment id text issueId authorId now in
          put_db (mkDb (users d) (issues d) (<[id := c]> (comments d)));;
          emit (CommentInserted id);;
          mret (c, Some (publicUser u))
      | _, _ => throw foreignKeyViolation
      end
  end.

(** Modelled from the spec: prisma/schema.prisma is not available.
    The closed enum of the User role column (spec, data model). *)
Definition Role : list string := ["CITIZEN"; "OFFICIAL"; "ADMIN"].

(** [data] of [prisma.user.update]. *)
Record UserUpdate := mkUserUpdate {
  update_name : option string;
  update_profilePicture : option string;
  update_role : option string;
}.

Definition applyUserUpdate (data : UserUpdate) (u : User) : User :=
  mkUser (user_id u) (or_keep (update_name data) (user_name u))
    (user_email u) (user_password u)
    (or_keep (update_role data) (user_role u))
    (match update_profilePicture data with
     | Some p => Some p
     | None => user_profilePicture u
     end).

(** [prisma.user.update({ where: { id }, data, select })] *)
Definition user_update (id : string) (data : UserUpdate) : Js User :=
  d ← get_db;
  if negb (enumOk Role (update_role data)) then throw validationError
  else match users d !! id with
  | None => throw recordNotFound
  | Some old =>
      let u := applyUserUpdate data old in
      put_db (mkDb (<[id := u]> (users d)) (issues d) (comments d));;
      emit (UserWritten id);;
      mret u
  end.

(** [prisma.user.findMany({ select: { .., _count: { issues } } })] *)
Definition user_findMany : Js (list (PublicUser * nat)) :=
  d ← get_db;
  mret ((λ u, (publicUser u, issueCountOf d (user_id u))) <$> (map_to_list (users d)).*2).

Definition commentNewer (a b : Comment) : Prop :=
  (comment_createdAt b ≤ comment_createdAt a)%nat.

#[global] Instance commentNewer_dec a b : Decision (commentNewer a b).
Proof. unfold commentNewer. apply _. Defined.

(** The comments of an issue with their authors, newest first
    ([where: { issueId }], [include: { author }],
    [orderBy: { createdAt: 'desc' }]). *)
Definition commentsOf (d : Db) (issueId : string) : list (Comment * option PublicUser) :=
  (λ c, (c, publicUser <$> users d !! comment_authorId c)) <$>
  merge_sort commentNewer
    (filter (λ c, comment_issueId c = issueId) (map_to_list (comments d)).*2).

(** [prisma.comment.findMany({ where: { issueId }, include, orderBy })] *)
Definition comment_findMany (issueId : string) : Js (list (Comment * option PublicUser)) :=
  d ← get_db; mret (commentsOf d issueId).

(** [prisma.issue.findMany({ where: { reporterId }, include: { _count },
    orderBy })] *)
Definition issue_findManyOf (reporterId : string) : Js (list (Issue * nat)) :=
  d ← get_db;
  mret ((λ i, (i, commentCount d (issue_id i))) <$>
        merge_sort newer
          (filter (λ i, issue_reporterId i = reporterId) (map_to_list (issues d)).*2)).

End Prisma.

(** ** Requests and middleware *)

(** [req.query] of the list endpoint.  [page] and [limit] arrive as decimal
    integer numerals (the router documents them as integers); on those
    [parseInt] and the numeric coercion of [-], [*] and [/] agree, and the
    numeral is held as its value. *)
Record Query := mkQuery {
  q_status : option string;
  q_category : option string;
  q_page : option Z;
  q_limit : option Z;
}.

(** [req.body], with the properties the handlers destructure; a property is
    absent ([undefined]) or has the type the router documents for it. *)
Record ReqBody := mkReqBody {
  body_title : option string;
  body_description : option string;
  body_location : option string;
  body_latitude : option float;
  body_longitude : option float;
  body_category : option string;
  body_images : option (list string);
  body_status : option string;
  body_content : option string;
  body_name : option string;
  body_profilePicture : option string;
  body_role : option string;
}.

Record Request := mkRequest {
  headers_authorization : option string;
  params_id : string;
  query : Query;
  body : ReqBody;
  user : option ReqUser;
  validationErrors : list string;
}.

Definition emptyBody : ReqBody :=
  mkReqBody None None None None None None None None None None None None.

Definition emptyQuery : Query := mkQuery None None None None.

(** A request as it enters a route: nobody has set [req.user] or recorded a
    validation finding yet. *)
Definition incoming (authorization : option string) (id : string)
    (q : Query) (b : ReqBody) : Request :=
  mkRequest authorization id q b None [].

(** What an Express middleware does with a request: it ends it, or hands
    the (possibly extended) request to the next function of the route
    ([next()]). *)
Inductive Step :=
| Done (o : Outcome)
| Continue (req : Request).

Definition Middleware : Type := Request → World → World * Step.

(** An [async (req, res, next) => { try { body } catch (error) { .. } }]
    run to its end: the last statement of [body] decides the step, a
    [return res.status(..).json(..)] leaves it early, and an exception
    reaches the [catch] block, which ends the request. *)
Definition async_try (body : Js Step) (catch : Error → Outcome) (w : World)
  : World * Step :=
  match body w with
  | (w', inr s) => (w', s)
  | (w', inl (Return o)) => (w', Done o)
  | (w', inl (Throw e)) => (w', Done (catch e))
  end.

(** The controllers all end in [catch (error) { next(error) }]. *)
Definition handler (body : Js Step) : World → World * Step :=
  async_try body NextError.

(** [res.status(s).json(b)] as the last statement of a handler. *)
Definition respond (status : Z) (b : Json) : Js Step :=
  mret (Done (Sent status b)).

Definition typeError : Error :=
  mkError "TypeError" "Cannot read properties of undefined".

(** [req.user] dereferenced. *)
Definition req_user (req : Request) : Js ReqUser :=
  match user req with
  | Some u => mret u
  | None => throw typeError
  end.

(** JavaScript truthiness of an optional string: [undefined] and [''] are
    falsy. *)
Definition truthy (v : option string) : bool :=
  match v with
  | Some s => negb (bool_decide (s = ""))
  | None => false
  end.

Definition sent {A} (status : Z) (b : Json) : Js A := return_ (Sent status b).

(** [list.includes(v)] for a list of strings: [undefined] is not in it. *)
Definition includes (l : list string) (v : option string) : bool :=
  match v with
  | Some s => bool_decide (s ∈ l)
  | None => false
  end.

(** *** express-validator *)

Inductive Check :=
| notEmpty
| isIn (allowed : list string).

Record Validator := body_ {
  v_field : ReqBody → option string;
  v_check : Check;
  withMessage : string;
}.

(** A validator sees the string form of the field, [''] for an absent one. *)
Definition passes (c : Check) (v : option string) : bool :=
  let s := default "" v in
  match c with
  | notEmpty => negb (bool_decide (s = ""))
  | isIn allowed => bool_decide (s ∈ allowed)
  end.

Definition failures (vs : list Validator) (b : ReqBody) : list string :=
  withMessage <$> filter (λ v, passes (v_check v) (v_field v b) = false) vs.

(** The validation chain of a route: it records its findings on the request
    and always calls [next()]. *)
Definition validate (vs : list Validator) : Middleware :=
  λ req w,
    (w, Continue (mkRequest (headers_authorization req) (params_id req)
                   (query req) (body req) (user req)
                   (validationErrors req ++ failures vs (body req)))).

(** [validationResult(req)] *)
Definition validationResult (req : Request) : list string := validationErrors req.

(** *** The mailer *)

(** The module [../mailer] is not available; its three functions are taken
    as a parameter: a send either resolves or rejects with an error. *)
Definition Mailer : Type := Mail → option Error.

Definition send (mailer : Mailer) (m : Mail) : Js unit :=
  emit (MailAttempt m);;
  match mailer m with
  | None => mret ()
  | Some e => throw e
  end.

(** ** controllers/issue.controller.js *)

(** [Math.ceil(total / limit)] on a row count and an integer limit. *)
Definition ceil_div (total : nat) (limit : Z) : JsNumber :=
  if limit =? 0 then (if (Z.of_nat total =? 0) then NaN else Infinity)
  else Num (- ((- Z.of_nat total) / limit)).

(** [if (v) filter.k = v] *)
Definition filterKey (v : option string) : option string :=
  if truthy v then v else None.

(** [GET /api/issues] *)
Definition getAllIssues : Middleware := λ req, handler (
  let status := q_status (query req) in
  let category := q_category (query req) in
  let page := default 1 (q_page (query req)) in
  let limit := default 10 (q_limit (query req)) in
  let skip := (page - 1) * limit in
  let filter := Prisma.mkIssueWhere (filterKey status) (filterKey category) in
  issues ← Prisma.issue_findMany filter skip limit;
  total ← Prisma.issue_count filter;
  respond 200 (JIssueList (length issues)
                 (mkPagination total page limit (ceil_div total limit))
                 issues)).

(** [GET /api/issues/:id] *)
Definition getIssueById : Middleware := λ req, handler (
  let id := params_id req in
  found ← Prisma.issue_findUnique id;
  match found with
  | None => sent 404 (JError "Issue not found")
  | Some issue =>
    d ← get_db;
    respond 200 (JIssueDetail issue
                   (Prisma.publicUser <$> users d !! issue_reporterId issue)
                   (Prisma.commentsOf d id))
  end).

(** [POST /api/issues] *)
Definition createIssue (mailer : Mailer) : Middleware := λ req, handler (
  let errors := validationResult req in
  if negb (bool_decide (errors = [])) then sent 400 (JValidation errors) else
  let b := body req in
  let images := default [] (body_images b) in
  u ← req_user req;
  '(issue, reporter) ← Prisma.issue_create
     (Prisma.mkIssueCreate (body_title b) (body_description b) (body_location b)
        (body_latitude b) (body_longitude b) (body_category b) images (req_id u));
  try_catch
    (match reporter with
     | Some r => send mailer (IssueCreatedEmail (reporter_email r) (reporter_name r) issue)
     | None => throw typeError
     end)
    (λ emailError, console_error "Failed to send issue creation email:" emailError);;
  try_catch
    (send mailer (AdminNotificationEmail issue))
    (λ emailError, console_error "Failed to send admin notification email:" emailError);;
  respond 201 (JIssueWithReporter issue reporter)).

(** [PUT /api/issues/:id] *)
Definition updateIssue (mailer : Mailer) : Middleware := λ req, handler (
  let id := params_id req in
  let b := body req in
  let status := body_status b in
  existing ← Prisma.issue_findUnique id;
  match existing with
  | None => sent 404 (JError "Issue not found")
  | Some existingIssue =>
    u ← req_user req;
    if bool_decide (issue_reporterId existingIssue ≠ req_id u) &&
       bool_decide (req_role u ≠ "OFFICIAL") &&
       bool_decide (req_role u ≠ "ADMIN")
    then sent 403 (JError "Not authorized to update this issue") else
    let statusChanged :=
      truthy status && bool_decide (status ≠ Some (issue_status existingIssue)) in
    let oldStatus := issue_status existingIssue in
    '(updatedIssue, reporter) ← Prisma.issue_update id
       (Prisma.mkIssueUpdate (body_title b) (body_description b) status
          (body_category b) None);
    (if statusChanged then
       try_catch
         (match reporter with
          | Some r => send mailer (StatusUpdateEmail (reporter_email r) (reporter_name r)
                                     updatedIssue oldStatus (default "" status))
          | None => throw typeError
          end)
         (λ emailError, console_error "Failed to send status update email:" emailError)
     else mret ());;
    respond 200 (JIssueWithReporter updatedIssue reporter)
  end).

(** [DELETE /api/issues/:id] *)
Definition deleteIssue : Middleware := λ req, handler (
  let id := params_id req in
  existing ← Prisma.issue_findUnique id;
  match existing with
  | None => sent 404 (JError "Issue not found")
  | Some existingIssue =>
    u ← req_user req;
    if bool_decide (issue_reporterId existingIssue ≠ req_id u) &&
       bool_decide (req_role u ≠ "ADMIN")
    then sent 403 (JError "Not authorized to delete this issue") else
    Prisma.comment_deleteMany id;;
    Prisma.issue_delete id;;
    respond 200 (JMessage "Issue deleted successfully")
  end).

(** [POST /api/issues/:id/upvote] *)
Definition upvoteIssue : Middleware := λ req, handler (
  let id := params_id req in
  existing ← Prisma.issue_findUnique id;
  match existing with
  | None => sent 404 (JError "Issue not found")
  | Some existingIssue =>
    '(updatedIssue, _) ← Prisma.issue_update id
       (Prisma.mkIssueUpdate None None None None (Some 1));
    respond 200 (JIssue updatedIssue)
  end).

(** [POST /api/issues/:id/comments] *)
Definition addComment : Middleware := λ req, handler (
  let errors := validationResult req in
  if negb (bool_decide (errors = [])) then sent 400 (JValidation errors) else
  let id := params_id req in
  let content := body_content (body req) in
  existing ← Prisma.issue_findUnique id;
  match existing with
  | None => sent 404 (JError "Issue not found")
  | Some existingIssue =>
    u ← req_user req;
    '(comment, author) ← Prisma.comment_create content id (req_id u);
    respond 201 (JComment comment author)
  end).

(** [GET /api/issues/:id/comments] *)
Definition getComments : Middleware := λ req, handler (
  let id := params_id req in
  existing ← Prisma.issue_findUnique id;
  match existing with
  | None => sent 404 (JError "Issue not found")
  | Some existingIssue =>
    comments ← Prisma.comment_findMany id;
    respond 200 (JCommentList (length comments) comments)
  end).

(** ** The user controller *)

(** [GET /api/users] *)
Definition getAllUsers : Middleware := λ req, handler (
  users ← Prisma.user_findMany;
  respond 200 (JUserList (length users) users)).

(** [GET /api/users/:id] *)
Definition getUserById : Middleware := λ req, handler (
  let id := params_id req in
  u ← req_user req;
  if bool_decide (id ≠ req_id u) && bool_decide (req_role u ≠ "ADMIN")
  then sent 403 (JError "Not authorized to view this user") else
  found ← Prisma.user_findUnique id;
  match found with
  | None => sent 404 (JError "User not found")
  | Some row =>
    d ← get_db;
    respond 200 (JUser (Prisma.publicUser row)
                   (Some (Prisma.issueCountOf d id))
                   (Some (Prisma.commentCountOf d id)))
  end).

(** [PUT /api/users/:id] *)
Definition updateUser : Middleware := λ req, handler (
  let id := params_id req in
  let name := body_name (body req) in
  let profilePicture := body_profilePicture (body req) in
  u ← req_user req;
  if bool_decide (id ≠ req_id u) && bool_decide (req_role u ≠ "ADMIN")
  then sent 403 (JError "Not authorized to update this user") else
  existingUser ← Prisma.user_findUnique id;
  match existingUser with
  | None => sent 404 (JError "User not found")
  | Some _ =>
    updatedUser ← Prisma.user_update id
                    (Prisma.mkUserUpdate name profilePicture None);
    respond 200 (JUser (Prisma.publicUser updatedUser) None None)
  end).

(** [GET /api/users/:id/issues] *)
Definition getUserIssues : Middleware := λ req, handler (
  let id := params_id req in
  u ← req_user req;
  if bool_decide (id ≠ req_id u) && bool_decide (req_role u ≠ "ADMIN") &&
     bool_decide (req_role u ≠ "OFFICIAL")
  then sent 403 (JError "Not authorized to view this user's issues") else
  existingUser ← Prisma.user_findUnique id;
  match existingUser with
  | None => sent 404 (JError "User not found")
  | Some _ =>
    issues ← Prisma.issue_findManyOf id;
    respond 200 (JIssuesOf (length issues) issues)
  end).

(** [PUT /api/users/:id/role] *)
Definition updateUserRole : Middleware := λ req, handler (
  let id := params_id req in
  let role := body_role (body req) in
  if negb (includes ["CITIZEN"; "OFFICIAL"; "ADMIN"] role)
  then sent 400 (JError "Invalid role") else
  existingUser ← Prisma.user_findUnique id;
  match existingUser with
  | None => sent 404 (JError "User not found")
  | Some _ =>
    updatedUser ← Prisma.user_update id (Prisma.mkUserUpdate None None role);
    respond 200 (JUser (Prisma.publicUser updatedUser) None None)
  end).

(** ** middleware/admin.middleware.js *)

(** A synchronous middleware: Express passes what it throws to the error
    handler. *)
Definition adminMiddleware : Middleware := λ req w,
  match user req with
  | None => (w, Done (NextError typeError))
  | Some u =>
      if bool_decide (req_role u ≠ "ADMIN")
      then (w, Done (Sent 403 (JError "Not authorized. Admin access required")))
      else (w, Continue req)
  end.

(** ** middleware/auth.middleware.js *)

(** [String.prototype.split] on a one-character separator. *)
Fixpoint split (sep : ascii) (s : string) : list string :=
  match s with
  | EmptyString => [EmptyString]
  | String c s' =>
      if Ascii.eqb c sep then EmptyString :: split sep s'
      else match split sep s' with
           | piece :: rest => String c piece :: rest
           | [] => [String c EmptyString]
           end
  end.

(** [jwt.verify(token, process.env.JWT_SECRET)] belongs to the jsonwebtoken
    package: for a token string it yields the [id] of the decoded payload or
    throws (a [JsonWebTokenError] for a bad signature or a malformed token,
    a [TokenExpiredError] past the expiry). *)
Definition Verifier : Type := string → Error + string.

Definition jwt_verify (verify : Verifier) (token : option string) : Js string :=
  match token with
  | None => throw (mkError "JsonWebTokenError" "jwt must be provided")
  | Some t =>
      match verify t with
      | inl e => throw e
      | inr id => mret id
      end
  end.

Definition attach (u : User) (req : Request) : Request :=
  mkRequest (headers_authorization req) (params_id req) (query req) (body req)
    (Some (mkReqUser (user_id u) (user_email u) (user_name u) (user_role u)))
    (validationErrors req).

Definition authCatch (error : Error) : Outcome :=
  if bool_decide (error_name error = "JsonWebTokenError")
  then Sent 401 (JError "Invalid token. Please log in again")
  else if bool_decide (error_name error = "TokenExpiredError")
  then Sent 401 (JError "Your token has expired. Please log in again")
  else NextError error.

Definition authMiddleware (verify : Verifier) : Middleware := λ req, async_try (
  let authHeader := headers_authorization req in
  if negb (truthy authHeader) ||
     negb (String.prefix "Bearer " (default "" authHeader))
  then sent 401 (JError "Not authenticated. Please log in") else
  let token := split " "%char (default "" authHeader) !! 1%nat in
  decoded_id ← jwt_verify verify token;
  found ← Prisma.user_findUnique decoded_id;
  match found with
  | None => sent 401 (JError "The user belonging to this token no longer exists")
  | Some row => mret (Continue (attach row req))
  end) authCatch.

(** ** The issue router *)

(** [router.METHOD(path, m1, m2, ..)]: the functions of a route run in
    order, each one reached only when the one before called [next()]. *)
Fixpoint route (ms : list Middleware) : Middleware :=
  match ms with
  | [] => λ req w, (w, Continue req)
  | m :: rest => λ req w,
      match m req w with
      | (w', Continue req') => route rest req' w'
      | r => r
      end
  end.

Definition issueValidators : list Validator :=
  [ body_ body_title notEmpty "Title is required";
    body_ body_description notEmpty "Description is required";
    body_ body_location notEmpty "Location is required";
    body_ body_category
      (isIn ["ROADS"; "WATER"; "ELECTRICITY"; "SANITATION"; "PUBLIC_SAFETY";
             "ENVIRONMENT"; "PUBLIC_PROPERTY"; "OTHER"])
      "Invalid category" ].

Definition commentValidators : list Validator :=
  [ body_ body_content notEmpty "Comment content is required" ].

Module router.

Definition get_issues : Middleware := route [getAllIssues].

Definition get_issue : Middleware := route [getIssueById].

Definition get_comments : Middleware := route [getComments].

Definition post_issues (verify : Verifier) (mailer : Mailer) : Middleware :=
  route [authMiddleware verify; validate issueValidators; createIssue mailer].

Definition put_issue (verify : Verifier) (mailer : Mailer) : Middleware :=
  route [authMiddleware verify; updateIssue mailer].

Definition delete_issue (verify : Verifier) : Middleware :=
  route [authMiddleware verify; deleteIssue].

Definition post_upvote (verify : Verifier) : Middleware :=
  route [authMiddleware verify; upvoteIssue].

Definition post_comments (verify : Verifier) : Middleware :=
  route [authMiddleware verify; validate commentValidators; addComment].

End router.

(** ** frontend/utils/pagination.js *)



(** ** A small city, for examples *)

Module Demo.

Definition alice : User := mkUser "u1" "Alice" "alice@city.org" "h1" "CITIZEN" None.
Definition bob : User := mkUser "u2" "Bob" "bob@city.org" "h2" "OFFICIAL" None.
Definition root : User := mkUser "u3" "Root" "root@city.org" "h3" "ADMIN" None.
Definition carol : User := mkUser "u4" "Carol" "carol@city.org" "h4" "CITIZEN" None.

Definition pothole : Issue :=
  mkIssue "i1" "Pothole" "Big pothole on 5th" "5th Ave" None None
          "ROADS" "REPORTED" 3 [] "u1" 0.
Definition lamp : Issue :=
  mkIssue "i2" "Lamp" "Broken street lamp" "Oak St" None None
          "ELECTRICITY" "RESOLVED" 0 [] "u4" 1.

Definition metoo : Comment := mkComment "c1" "me too" "i1" "u4" 2.
Definition fixed : Comment := mkComment "c2" "fixed?" "i2" "u1" 3.
Definition thanks : Comment := mkComment "c3" "thanks" "i1" "u2" 4.

Definition db : Db :=
  mkDb (list_to_map [("u1", alice); ("u2", bob); ("u3", root); ("u4", carol)])
       (list_to_map [("i1", pothole); ("i2", lamp)])
       (list_to_map [("c1", metoo); ("c2", fixed); ("c3", thanks)]).

Definition world : World := mkWorld db 5 [].

(** Tokens [tok-<id>] carry the subject [<id>]; [old] is past its expiry;
    anything else has a bad signature. *)
Definition verify : Verifier := λ t,
  if bool_decide (t = "old") then inl (mkError "TokenExpiredError" "jwt expired")
  else if String.prefix "tok-" t then inr (String.substring 4 (String.length t - 4) t)
  else inl (mkError "JsonWebTokenError" "invalid signature").

Definition delivering : Mailer := λ _, None.
Definition failing : Mailer := λ _, Some (mkError "Error" "connect ECONNREFUSED").

Definition as_ (u : User) : option ReqUser :=
  Some (mkReqUser (user_id u) (user_email u) (user_name u) (user_role u)).

(** A request as a controller sees it after authentication. *)
Definition by_ (u : User) (id : string) (b : ReqBody) : Request :=
  mkRequest None id emptyQuery b (as_ u) [].

Definition withStatus (s : string) : ReqBody :=
  mkReqBody None None None None None None None (Some s) None None None None.

Definition withContent (s : string) : ReqBody :=
  mkReqBody None None None None None None None None (Some s) None None None.

Definition scenarioA : ReqBody :=
  mkReqBody (Some "Pothole") (Some "Big pothole on 5th") (Some "5th Ave")
            None None (Some "ROADS") None None None None None None.

End Demo.

(** ** Vocabulary of the properties *)

(** The two authorization rules of the issue controller. *)
Definition mayUpdate (actor : ReqUser) (i : Issue) : Prop :=
  issue_reporterId i = req_id actor ∨ req_role actor = "OFFICIAL" ∨
  req_role actor = "ADMIN".

Definition mayDelete (actor : ReqUser) (i : Issue) : Prop :=
  issue_reporterId i = req_id actor ∨ req_role actor = "ADMIN".


(** The mails a stretch of trace tried to send, and the errors it logged. *)
Definition mailAttempts (tr : list Event) : list Mail :=
  omap (λ e, match e with MailAttempt m => Some m | _ => None end) tr.

Definition logged (tr : list Event) : list Error :=
  omap (λ e, match e with ConsoleError _ e => Some e | _ => None end) tr.

(** A sequence of requests served one after the other by the same
    function. *)
Definition serve (m : Middleware) (reqs : list Request) (w : World) : World :=
  foldl (λ w req, (m req w).1) w reqs.

Definition upvotesOf (w : World) (id : string) : option Z :=
  issue_upvotes <$> issues (w_db w) !! id.

(** Rows are stored under their own id. *)
Definition usersKeyed (d : Db) : Prop :=
  ∀ k u, users d !! k = Some u → user_id u = k.

Definition issuesKeyed (d : Db) : Prop :=
  ∀ k i, issues d !! k = Some i → issue_id i = k.

Definition commentsKeyed (d : Db) : Prop :=
  ∀ k c, comments d !! k = Some c → comment_id c = k.

(** The foreign keys: an issue has a reporter, a comment an issue and an
    author. *)
Definition reportersExist (d : Db) : Prop :=
  ∀ k i, issues d !! k = Some i → is_Some (users d !! issue_reporterId i).

Definition commentsAnchored (d : Db) : Prop :=
  ∀ k c, comments d !! k = Some c →
    is_Some (issues d !! comment_issueId c) ∧ is_Some (users d !! comment_authorId c).

(** The enum columns hold enum members. *)
Definition statusesValid (d : Db) : Prop :=
  ∀ k i, issues d !! k = Some i → issue_status i ∈ Prisma.Status.

Definition categoriesValid (d : Db) : Prop :=
  ∀ k i, issues d !! k = Some i → issue_category i ∈ Prisma.Category.

Record wf_db (d : Db) : Prop := mk_wf_db {
  wf_usersKeyed : usersKeyed d;
  wf_issuesKeyed : issuesKeyed d;
  wf_commentsKeyed : commentsKeyed d;
  wf_reportersExist : reportersExist d;
  wf_commentsAnchored : commentsAnchored d;
  wf_statusesValid : statusesValid d;
  wf_categoriesValid : categoriesValid d;
}.

(** The functions that serve requests: the controllers, the middleware and
    the routes built from them. *)
Inductive endpoint (verify : Verifier) (mailer : Mailer) : Middleware → Prop :=
| ep_getAllIssues : endpoint verify mailer getAllIssues
| ep_createIssue : endpoint verify mailer (createIssue mailer)
| ep_updateIssue : endpoint verify mailer (updateIssue mailer)
| ep_deleteIssue : endpoint verify mailer deleteIssue
| ep_upvoteIssue : endpoint verify mailer upvoteIssue
| ep_addComment : endpoint verify mailer addComment
| ep_getIssueById : endpoint verify mailer getIssueById
| ep_getComments : endpoint verify mailer getComments
| ep_getAllUsers : endpoint verify mailer getAllUsers
| ep_getUserById : endpoint verify mailer getUserById
| ep_updateUser : endpoint verify mailer updateUser
| ep_getUserIssues : endpoint verify mailer getUserIssues
| ep_updateUserRole : endpoint verify mailer updateUserRole
| ep_adminMiddleware : endpoint verify mailer adminMiddleware
| ep_authMiddleware : endpoint verify mailer (authMiddleware verify)
| ep_validate vs : endpoint verify mailer (validate vs)
| ep_route_nil : endpoint verify mailer (route [])
| ep_route_cons m ms :
    endpoint verify mailer m → endpoint verify mailer (route ms) →
    endpoint verify mailer (route (m :: ms)).

(** One write to the database, as the Prisma calls of the controllers make
    them; the removal of an issue comes with the removal of its comments. *)
Inductive write (d : Db) : Db → Prop :=
| write_issue_created i :
    issues d !! issue_id i = None →
    is_Some (users d !! issue_reporterId i) →
    issue_status i = Prisma.defaultStatus →
    issue_category i ∈ Prisma.Category →
    write d (mkDb (users d) (<[issue_id i := i]> (issues d)) (comments d))
| write_issue_updated k i data :
    issues d !! k = Some i →
    Prisma.enumOk Prisma.Status (Prisma.update_status data) = true →
    Prisma.enumOk Prisma.Category (Prisma.update_category data) = true →
    write d (mkDb (users d) (<[k := Prisma.applyUpdate data i]> (issues d))
                  (comments d))
| write_issue_deleted k :
    write d (mkDb (users d) (delete k (issues d))
                  (filter (λ kv, comment_issueId kv.2 ≠ k) (comments d)))
| write_comment_created c :
    comments d !! comment_id c = None →
    is_Some (issues d !! comment_issueId c) →
    is_Some (users d !! comment_authorId c) →
    write d (mkDb (users d) (issues d) (<[comment_id c := c]> (comments d)))
| write_user_updated k u data :
    users d !! k = Some u →
    write d (mkDb (<[k := Prisma.applyUserUpdate data u]> (users d))
                  (issues d) (comments d)).

(** The worlds the service can be in: it starts with some registered users
    and no issue, and serves one request after the other, whatever the token
    verifier and the mailer do for each. *)
Inductive reachable : World → Prop :=
| reach_start us now :
    (∀ k u, us !! k = Some u → user_id u = k) →
    reachable (mkWorld (mkDb us ∅ ∅) now [])
| reach_step verify mailer m req w :
    endpoint verify mailer m → reachable w → reachable (m req w).1.

Module Story.

(** A fresh service with the four users of the demo, and Alice's first
    report. *)
Definition start : World := mkWorld (mkDb (users Demo.db) ∅ ∅) 0 [].

Definition afterReport : World :=
  (router.post_issues Demo.verify Demo.delivering
     (incoming (Some "Bearer tok-u1") "" emptyQuery Demo.scenarioA) start).1.

End Story.

(** ** Vocabulary of the further properties *)


(** The issues on page [p] of the list endpoint, for the other query
    parameters of [q]: what a client sees when it asks for that page. *)
Definition issuesPage (q : Query) (p : Z) (w : World) : list Issue :=
  match getAllIssues
          (incoming None "" (mkQuery (q_status q) (q_category q) (Some p) (q_limit q))
                    emptyBody) w with
  | (_, Done (Sent _ (JIssueList _ _ rows))) => row_issue <$> rows
  | _ => []
  end.

(** ** frontend/utils/pagination.js, the other helpers

    The arguments are integers, as everywhere in the client; a division by
    zero shows in [totalPages] as [Infinity] or [NaN]. *)

Record PaginationInfo := mkPaginationInfo {
  totalItems : nat;
  currentPage : Z;
  itemsPerPage : Z;
  totalPages : JsNumber;
  startIndex : Z;
  endIndex : Z;
  hasNextPage : bool;
  hasPrevPage : bool;
}.

(** [n || 1]: [0] and [NaN] are falsy. *)
Definition orOne (n : JsNumber) : JsNumber :=
  match n with
  | Num 0 => Num 1
  | NaN => Num 1
  | _ => n
  end.

(** [z < n] *)
Definition js_lt (z : Z) (n : JsNumber) : bool :=
  match n with
  | Num t => z <? t
  | Infinity => true
  | NaN => false
  end.

(** [getPaginationInfo(totalItems, currentPage = 1, itemsPerPage = 10)].
    [Math.min(currentPage, totalPages || 1)] is an integer: its second
    argument is an integer or [Infinity], never [NaN]. *)
Definition getPaginationInfo (totalItems : nat) (currentPage itemsPerPage : option Z)
  : PaginationInfo :=
  let currentPage := default 1 currentPage in
  let itemsPerPage := default 10 itemsPerPage in
  let totalPages := ceil_div totalItems itemsPerPage in
  let validCurrentPage :=
    Z.max 1 (match orOne totalPages with
             | Num t => Z.min currentPage t
             | _ => currentPage
             end) in
  let startIndex := (validCurrentPage - 1) * itemsPerPage in
  let endIndex := Z.min (startIndex + itemsPerPage - 1) (Z.of_nat totalItems - 1) in
  mkPaginationInfo totalItems validCurrentPage itemsPerPage totalPages
    startIndex endIndex (js_lt validCurrentPage totalPages)
    (validCurrentPage >? 1).









(** * Properties *)

Ltac js_unfold :=
  unfold handler, async_try, sent, respond, return_, throw, req_user,
    Prisma.issue_findUnique, Prisma.user_findUnique, Prisma.issue_update,
    Prisma.issue_delete, Prisma.comment_deleteMany, Prisma.comment_create,
    Prisma.user_update, Prisma.issue_create, Prisma.issue_findMany,
    Prisma.issue_count, jwt_verify, send, console_error, try_catch, emit,
    get_db, put_db, tick, mbind, mret, Js_bind, Js_ret, js_bind, js_ret in *.

(** ** Existence and authorization *)

Section NotFound.

Context (mailer : Mailer) (req : Request) (w : World).

Let notFound (what : string) : World * Step :=
  (w, Done (Sent 404 (JError (what ++ " not found")))).

Lemma updateIssue_missing :
  issues (w_db w) !! params_id req = None →
  updateIssue mailer req w = notFound "Issue".
Proof. intros H. unfold updateIssue. js_unfold. simpl. by rewrite H. Qed.

Lemma deleteIssue_missing :
  issues (w_db w) !! params_id req = None →
  deleteIssue req w = notFound "Issue".
Proof. intros H. unfold deleteIssue. js_unfold. simpl. by rewrite H. Qed.

Lemma upvoteIssue_missing :
  issues (w_db w) !! params_id req = None →
  upvoteIssue req w = notFound "Issue".
Proof. intros H. unfold upvoteIssue. js_unfold. simpl. by rewrite H. Qed.

Lemma addComment_missing :
  issues (w_db w) !! params_id req = None →
  addComment req w =
    if bool_decide (validationResult req = []) then notFound "Issue"
    else (w, Done (Sent 400 (JValidation (validationResult req)))).
Proof.
  intros H. unfold addComment. js_unfold.
  case_bool_decide; simpl; [by rewrite H | done].
Qed.

Lemma getUserById_missing actor :
  user req = Some actor →
  users (w_db w) !! params_id req = None →
  getUserById req w =
    if bool_decide (params_id req = req_id actor ∨ req_role actor = "ADMIN")
    then notFound "User"
    else (w, Done (Sent 403 (JError "Not authorized to view this user"))).
Proof.
  intros Hu H. unfold getUserById. js_unfold. rewrite Hu. simpl.
  repeat case_bool_decide; simpl; rewrite ?H; try done; tauto.
Qed.

Lemma updateUser_missing actor :
  user req = Some actor →
  users (w_db w) !! params_id req = None →
  updateUser req w =
    if bool_decide (params_id req = req_id actor ∨ req_role actor = "ADMIN")
    then notFound "User"
    else (w, Done (Sent 403 (JError "Not authorized to update this user"))).
Proof.
  intros Hu H. unfold updateUser. js_unfold. rewrite Hu. simpl.
  repeat case_bool_decide; simpl; rewrite ?H; try done; tauto.
Qed.

End NotFound.

(** C1 (as amended).  The issue operations resolve the issue first: with a
    missing issue, update, delete and upvote answer 404 to every actor, and
    so does comment once the content validation has passed (a comment
    request with validation findings is answered 400 before the lookup).
    The user operations decide authorization first: with a missing user,
    view and update answer 404 only to an actor who is ADMIN or addresses
    their own id, and 403 to every other actor. *)
Theorem missing_resource_answers
    (mailer : Mailer) (reqI reqU : Request) (w : World) (actor : ReqUser) :
  issues (w_db w) !! params_id reqI = None →
  user reqU = Some actor →
  users (w_db w) !! params_id reqU = None →
  let notFound what := (w, Done (Sent 404 (JError (what ++ " not found")))) in
  let allowed :=
    bool_decide (params_id reqU = req_id actor ∨ req_role actor = "ADMIN") in
  updateIssue mailer reqI w = notFound "Issue" ∧
  deleteIssue reqI w = notFound "Issue" ∧
  upvoteIssue reqI w = notFound "Issue" ∧
  addComment reqI w =
    (if bool_decide (validationResult reqI = []) then notFound "Issue"
     else (w, Done (Sent 400 (JValidation (validationResult reqI))))) ∧
  getUserById reqU w =
    (if allowed then notFound "User"
     else (w, Done (Sent 403 (JError "Not authorized to view this user")))) ∧
  updateUser reqU w =
    (if allowed then notFound "User"
     else (w, Done (Sent 403 (JError "Not authorized to update this user")))).
Proof.
  intros HI Hu HU. cbv zeta.
  split_and!.
  - by apply updateIssue_missing.
  - by apply deleteIssue_missing.
  - by apply upvoteIssue_missing.
  - by apply addComment_missing.
  - by apply getUserById_missing.
  - by apply updateUser_missing.
Qed.

(** The administrator asks for an issue and a user that do not exist. *)
Lemma missing_resource_answers_witness :
  let reqI := Demo.by_ Demo.root "nowhere" (Demo.withContent "hello") in
  let reqU := Demo.by_ Demo.root "nobody" emptyBody in
  let notFound what := (Demo.world, Done (Sent 404 (JError (what ++ " not found")))) in
  (issues Demo.db !! "nowhere" = None ∧ users Demo.db !! "nobody" = None) ∧
  updateIssue Demo.delivering reqI Demo.world = notFound "Issue" ∧
  deleteIssue reqI Demo.world = notFound "Issue" ∧
  upvoteIssue reqI Demo.world = notFound "Issue" ∧
  addComment reqI Demo.world = notFound "Issue" ∧
  getUserById reqU Demo.world = notFound "User" ∧
  updateUser reqU Demo.world = notFound "User".
Proof.
  cbv zeta. split; [split; reflexivity|].
  apply (missing_resource_answers Demo.delivering
           (Demo.by_ Demo.root "nowhere" (Demo.withContent "hello"))
           (Demo.by_ Demo.root "nobody" emptyBody)
           Demo.world (mkReqUser "u3" "root@city.org" "Root" "ADMIN"));
    reflexivity.
Defined.

(** C1 (as stated) fails on the user controller: a citizen who asks for a
    user that does not exist is answered 403, not 404. *)
Lemma missing_user_answered_forbidden :
  users (w_db Demo.world) !! "nobody" = None ∧
  getUserById (Demo.by_ Demo.alice "nobody" emptyBody) Demo.world =
    (Demo.world, Done (Sent 403 (JError "Not authorized to view this user"))) ∧
  updateUser (Demo.by_ Demo.alice "nobody" emptyBody) Demo.world =
    (Demo.world, Done (Sent 403 (JError "Not authorized to update this user"))).
Proof. split_and!; reflexivity. Qed.

(** ** Who may change or remove an issue *)

Lemma updateIssue_forbidden mailer req w actor i :
  user req = Some actor →
  issues (w_db w) !! params_id req = Some i →
  ¬ mayUpdate actor i →
  updateIssue mailer req w =
    (w, Done (Sent 403 (JError "Not authorized to update this issue"))).
Proof.
  intros Hu Hi Hn. unfold updateIssue. js_unfold. simpl. rewrite Hi, Hu. simpl.
  unfold mayUpdate in Hn.
  repeat case_bool_decide; simpl; try reflexivity; exfalso; tauto.
Qed.

Lemma deleteIssue_forbidden req w actor i :
  user req = Some actor →
  issues (w_db w) !! params_id req = Some i →
  ¬ mayDelete actor i →
  deleteIssue req w =
    (w, Done (Sent 403 (JError "Not authorized to delete this issue"))).
Proof.
  intros Hu Hi Hn. unfold deleteIssue. js_unfold. simpl. rewrite Hi, Hu. simpl.
  unfold mayDelete in Hn.
  repeat case_bool_decide; simpl; try reflexivity; exfalso; tauto.
Qed.

(** What a granted delete writes. *)
Lemma deleteIssue_granted req w actor i :
  user req = Some actor →
  issues (w_db w) !! params_id req = Some i →
  mayDelete actor i →
  deleteIssue req w =
    (mkWorld
       (mkDb (users (w_db w))
             (delete (params_id req) (issues (w_db w)))
             (filter (λ kv, comment_issueId kv.2 ≠ params_id req) (comments (w_db w))))
       (w_now w)
       ((w_trace w ++ [CommentsRemovedOf (params_id req)]) ++ [IssueRemoved (params_id req)]),
     Done (Sent 200 (JMessage "Issue deleted successfully"))).
Proof.
  intros Hu Hi Hm. unfold deleteIssue. js_unfold. simpl. rewrite Hi, Hu. simpl.
  unfold mayDelete in Hm.
  repeat case_bool_decide; simpl; rewrite ?Hi; try reflexivity; exfalso; tauto.
Qed.

(** C2.  For an existing issue and an authenticated actor, update answers
    200 only to the reporter, an OFFICIAL or an ADMIN, and delete answers 200
    only to the reporter or an ADMIN; every other actor is answered 403 and
    nothing is written.  (A delete by the reporter or an ADMIN does go
    through.) *)
Theorem issue_mutation_authorization
    (mailer : Mailer) (req : Request) (w : World) (actor : ReqUser) (i : Issue) :
  user req = Some actor →
  issues (w_db w) !! params_id req = Some i →
  ((∃ w' b, updateIssue mailer req w = (w', Done (Sent 200 b))) → mayUpdate actor i) ∧
  (¬ mayUpdate actor i →
     updateIssue mailer req w =
       (w, Done (Sent 403 (JError "Not authorized to update this issue")))) ∧
  ((∃ w' b, deleteIssue req w = (w', Done (Sent 200 b))) → mayDelete actor i) ∧
  (¬ mayDelete actor i →
     deleteIssue req w =
       (w, Done (Sent 403 (JError "Not authorized to delete this issue")))) ∧
  (mayDelete actor i →
     ∃ w', deleteIssue req w =
             (w', Done (Sent 200 (JMessage "Issue deleted successfully")))).
Proof.
  intros Hu Hi. split_and!;
    [| | | |by intros Hm; eexists; apply (deleteIssue_granted _ _ actor i)].
  - intros (w' & b & H).
    destruct (decide (mayUpdate actor i)) as [|Hn]; [done|].
    rewrite (updateIssue_forbidden _ _ _ _ _ Hu Hi Hn) in H. discriminate.
  - by apply updateIssue_forbidden.
  - intros (w' & b & H).
    destruct (decide (mayDelete actor i)) as [|Hn]; [done|].
    rewrite (deleteIssue_forbidden _ _ _ _ Hu Hi Hn) in H. discriminate.
  - by apply deleteIssue_forbidden.
Qed.

(** Scenario C of the spec: Carol, a citizen, is not the reporter of the
    pothole; an official may update it but not delete it. *)
Lemma issue_mutation_authorization_witness :
  let req := Demo.by_ Demo.carol "i1" (Demo.withStatus "CLOSED") in
  updateIssue Demo.delivering req Demo.world =
    (Demo.world, Done (Sent 403 (JError "Not authorized to update this issue"))) ∧
  deleteIssue req Demo.world =
    (Demo.world, Done (Sent 403 (JError "Not authorized to delete this issue"))).
Proof.
  cbv zeta.
  destruct (issue_mutation_authorization Demo.delivering
              (Demo.by_ Demo.carol "i1" (Demo.withStatus "CLOSED")) Demo.world
              (mkReqUser "u4" "carol@city.org" "Carol" "CITIZEN") Demo.pothole
              eq_refl eq_refl) as (_ & Hupd & _ & Hdel & _).
  split.
  - apply Hupd. unfold mayUpdate. simpl. intros [H|[H|H]]; discriminate H.
  - apply Hdel. unfold mayDelete. simpl. intros [H|H]; discriminate H.
Defined.

(** ** Deleting an issue *)

(** A delete is answered 200 only when it was granted. *)
Lemma deleteIssue_success_inv req w w' b :
  deleteIssue req w = (w', Done (Sent 200 b)) →
  ∃ actor i, user req = Some actor ∧
    issues (w_db w) !! params_id req = Some i ∧ mayDelete actor i.
Proof.
  intros H.
  destruct (issues (w_db w) !! params_id req) as [i|] eqn:Hi.
  2:{ rewrite deleteIssue_missing in H by done. discriminate. }
  destruct (user req) as [actor|] eqn:Hu.
  2:{ revert H. unfold deleteIssue. js_unfold. simpl. rewrite Hi, Hu. discriminate. }
  destruct (decide (mayDelete actor i)) as [Hm|Hn].
  - eauto.
  - rewrite (deleteIssue_forbidden _ _ _ _ Hu Hi Hn) in H. discriminate.
Qed.

(** C3.  A successful delete first removes every comment of the issue and
    then the issue itself, and nothing else: afterwards no comment refers to
    the deleted id, the issue is gone, and the comments of other issues are
    still there. *)
Theorem deleteIssue_cascade (req : Request) (w w' : World) (b : Json) :
  deleteIssue req w = (w', Done (Sent 200 b)) →
  let id := params_id req in
  w_trace w' = (w_trace w ++ [CommentsRemovedOf id; IssueRemoved id])%list ∧
  (∀ k c, comments (w_db w') !! k = Some c → comment_issueId c ≠ id) ∧
  issues (w_db w') !! id = None ∧
  (∀ k c, comments (w_db w) !! k = Some c → comment_issueId c ≠ id →
          comments (w_db w') !! k = Some c).
Proof.
  intros H id.
  destruct (deleteIssue_success_inv _ _ _ _ H) as (actor & i & Hu & Hi & Hm).
  rewrite (deleteIssue_granted _ _ _ _ Hu Hi Hm) in H.
  injection H as <- _. simpl. split_and!.
  - by rewrite <- app_assoc.
  - intros k c Hk. apply map_lookup_filter_Some in Hk as [_ Hne]. exact Hne.
  - apply lookup_delete_eq.
  - intros k c Hk Hne. apply map_lookup_filter_Some. done.
Qed.

(** Alice deletes her pothole report, which has two comments. *)
Lemma deleteIssue_cascade_witness :
  ∃ w', deleteIssue (Demo.by_ Demo.alice "i1" emptyBody) Demo.world =
          (w', Done (Sent 200 (JMessage "Issue deleted successfully"))) ∧
        w_trace w' = [CommentsRemovedOf "i1"; IssueRemoved "i1"] ∧
        (∀ k c, comments (w_db w') !! k = Some c → comment_issueId c ≠ "i1") ∧
        issues (w_db w') !! "i1" = None.
Proof.
  eexists. split; [reflexivity|].
  destruct (deleteIssue_cascade (Demo.by_ Demo.alice "i1" emptyBody) Demo.world
              _ _ eq_refl) as (Ht & Hc & Hi & _).
  split_and!; [exact Ht | exact Hc | exact Hi].
Defined.

(** ** Updating an issue *)

(** Every way [updateIssue] can end, as a function of the stored issue. *)
Lemma updateIssue_unfold mailer req w :
  updateIssue mailer req w =
  let id := params_id req in
  let b := body req in
  match issues (w_db w) !! id with
  | None => (w, Done (Sent 404 (JError "Issue not found")))
  | Some i =>
    match user req with
    | None => (w, Done (NextError typeError))
    | Some u =>
      if bool_decide (issue_reporterId i ≠ req_id u) &&
         bool_decide (req_role u ≠ "OFFICIAL") && bool_decide (req_role u ≠ "ADMIN")
      then (w, Done (Sent 403 (JError "Not authorized to update this issue")))
      else if negb (Prisma.enumOk Prisma.Status (body_status b) &&
                    Prisma.enumOk Prisma.Category (body_category b))
      then (w, Done (NextError Prisma.validationError))
      else
        let i' := Prisma.applyUpdate
                    (Prisma.mkIssueUpdate (body_title b) (body_description b)
                       (body_status b) (body_category b) None) i in
        let reporter := users (w_db w) !! issue_reporterId i' in
        let label := "Failed to send status update email:" in
        let evs :=
          if truthy (body_status b) &&
             bool_decide (body_status b ≠ Some (issue_status i))
          then match reporter with
               | Some r =>
                   let m := StatusUpdateEmail (user_email r) (user_name r) i'
                              (issue_status i) (default "" (body_status b)) in
                   MailAttempt m ::
                   match mailer m with
                   | Some e => [ConsoleError label e]
                   | None => []
                   end
               | None => [ConsoleError label typeError]
               end
          else [] in
        (mkWorld (mkDb (users (w_db w)) (<[id := i']> (issues (w_db w)))
                       (comments (w_db w)))
                 (w_now w) (w_trace w ++ IssueWritten id :: evs),
         Done (Sent 200 (JIssueWithReporter i' (Prisma.reporterOf <$> reporter))))
    end
  end.
Proof.
  unfold updateIssue. js_unfold. cbv zeta. simpl.
  destruct (issues (w_db w) !! params_id req) as [i|] eqn:Hi; [|done].
  destruct (user req) as [u|]; [|done]. simpl.
  destruct (bool_decide (issue_reporterId i ≠ req_id u) && _ && _); [done|].
  simpl.
  destruct (negb _); [done|]. simpl. rewrite Hi. simpl.
  destruct (truthy (body_status (body req)) && _); simpl; [|done].
  destruct (users (w_db w) !! issue_reporterId i) as [r|]; simpl.
  - destruct (mailer _); simpl; by rewrite <- !app_assoc.
  - by rewrite <- !app_assoc.
Qed.

(** A 200 from [updateIssue] means the write went through as requested. *)
Lemma updateIssue_success_inv mailer req w w' b :
  updateIssue mailer req w = (w', Done (Sent 200 b)) →
  ∃ actor i evs,
    user req = Some actor ∧
    issues (w_db w) !! params_id req = Some i ∧
    mayUpdate actor i ∧
    Prisma.enumOk Prisma.Status (body_status (body req)) = true ∧
    Prisma.enumOk Prisma.Category (body_category (body req)) = true ∧
    let i' := Prisma.applyUpdate
                (Prisma.mkIssueUpdate (body_title (body req))
                   (body_description (body req)) (body_status (body req))
                   (body_category (body req)) None) i in
    w_db w' = mkDb (users (w_db w)) (<[params_id req := i']> (issues (w_db w)))
                   (comments (w_db w)) ∧
    w_trace w' = (w_trace w ++ IssueWritten (params_id req) :: evs)%list ∧
    b = JIssueWithReporter i'
          (Prisma.reporterOf <$> users (w_db w) !! issue_reporterId i).
Proof.
  rewrite updateIssue_unfold. cbv zeta.
  destruct (issues (w_db w) !! params_id req) as [i|] eqn:Hi; [|discriminate].
  destruct (user req) as [u|]; [|discriminate].
  destruct (bool_decide (issue_reporterId i ≠ req_id u) && _ && _) eqn:Hauth;
    [discriminate|].
  destruct (Prisma.enumOk Prisma.Status _) eqn:Hs; [|discriminate].
  destruct (Prisma.enumOk Prisma.Category _) eqn:Hc; [|discriminate].
  simpl. intros H. injection H as <- <-.
  eexists u, i, _. split_and!; try done.
  apply andb_false_iff in Hauth as [Hauth|Hauth];
    [apply andb_false_iff in Hauth as [Hauth|Hauth]|];
    apply bool_decide_eq_false in Hauth; apply dec_stable in Hauth;
    unfold mayUpdate; tauto.
Qed.

(** C10.  A successful update leaves the issue's reporter, upvotes,
    location, coordinates and images as they were (and its id and creation
    time); title, description, status and category take the value given in
    the body or stay; no other issue, no comment and no user is touched. *)
Theorem updateIssue_frame
    (mailer : Mailer) (req : Request) (w w' : World) (b : Json) (i : Issue) :
  issues (w_db w) !! params_id req = Some i →
  updateIssue mailer req w = (w', Done (Sent 200 b)) →
  ∃ i', issues (w_db w') !! params_id req = Some i' ∧
    (issue_reporterId i' = issue_reporterId i ∧
     issue_upvotes i' = issue_upvotes i ∧
     issue_location i' = issue_location i ∧
     issue_latitude i' = issue_latitude i ∧
     issue_longitude i' = issue_longitude i ∧
     issue_images i' = issue_images i ∧
     issue_id i' = issue_id i ∧
     issue_createdAt i' = issue_createdAt i) ∧
    (issue_title i' = default (issue_title i) (body_title (body req)) ∧
     issue_description i' = default (issue_description i) (body_description (body req)) ∧
     issue_status i' = default (issue_status i) (body_status (body req)) ∧
     issue_category i' = default (issue_category i) (body_category (body req))) ∧
    (∀ k, k ≠ params_id req → issues (w_db w') !! k = issues (w_db w) !! k) ∧
    users (w_db w') = users (w_db w) ∧
    comments (w_db w') = comments (w_db w).
Proof.
  intros Hi H.
  apply updateIssue_success_inv in H
    as (actor & i0 & evs & _ & Hi0 & _ & _ & _ & Hdb & _ & _).
  rewrite Hi in Hi0. injection Hi0 as <-. rewrite Hdb. simpl.
  eexists. split; [apply lookup_insert_eq|].
  split_and!; try reflexivity.
  intros k Hk. by apply lookup_insert_ne.
Qed.

(** Scenario B of the spec: Bob, an official, resolves the pothole. *)
Lemma updateIssue_frame_witness :
  ∃ w' i',
    updateIssue Demo.delivering
      (Demo.by_ Demo.bob "i1" (Demo.withStatus "RESOLVED")) Demo.world =
      (w', Done (Sent 200 (JIssueWithReporter i'
                             (Some (mkReporter "u1" "Alice" "alice@city.org"))))) ∧
    issues (w_db w') !! "i1" = Some i' ∧
    issue_status i' = "RESOLVED" ∧
    issue_reporterId i' = "u1" ∧ issue_upvotes i' = 3 ∧
    issue_location i' = "5th Ave" ∧ issue_images i' = [].
Proof.
  eexists _, _. split; [reflexivity|].
  destruct (updateIssue_frame Demo.delivering
              (Demo.by_ Demo.bob "i1" (Demo.withStatus "RESOLVED")) Demo.world
              _ _ Demo.pothole eq_refl eq_refl)
    as (i' & Hi' & (Hr & Hu & Hl & _ & _ & Him & _) & (_ & _ & Hs & _) & _).
  simpl in Hi'. rewrite lookup_insert_eq in Hi'. injection Hi' as <-.
  split_and!; reflexivity.
Defined.

Lemma status_not_empty s : s ∈ Prisma.Status → s ≠ "".
Proof.
  intros H ->. apply list_elem_of_In in H. simpl in H.
  repeat destruct H as [H|H]; try discriminate H. done.
Qed.

(** C4.  On a successful update of an issue whose reporter is a stored user
    (the foreign key of the issue table), the only mail attempted is the
    status notification to that reporter, carrying the old and the new
    status; it is attempted once when the body gives a status different from
    the stored one and not at all otherwise.  A rejected send is logged, and
    neither the response nor the database depends on the mailer. *)
Theorem status_change_notification
    (mailer : Mailer) (req : Request) (w w' : World) (b : Json) :
  reportersExist (w_db w) →
  updateIssue mailer req w = (w', Done (Sent 200 b)) →
  ∃ i i' r evs,
    issues (w_db w) !! params_id req = Some i ∧
    issues (w_db w') !! params_id req = Some i' ∧
    users (w_db w) !! issue_reporterId i = Some r ∧
    w_trace w' = (w_trace w ++ evs)%list ∧
    mailAttempts evs =
      match body_status (body req) with
      | Some s =>
          if decide (s = issue_status i) then []
          else [StatusUpdateEmail (user_email r) (user_name r) i'
                  (issue_status i) s]
      | None => []
      end ∧
    (∀ m e, m ∈ mailAttempts evs → mailer m = Some e → e ∈ logged evs) ∧
    (∀ mailer', ∃ w'', updateIssue mailer' req w = (w'', Done (Sent 200 b)) ∧
                       w_db w'' = w_db w').
Proof.
  intros Hre. rewrite updateIssue_unfold. cbv zeta.
  destruct (issues (w_db w) !! params_id req) as [i|] eqn:Hi; [|discriminate].
  destruct (user req) as [u|] eqn:Hu; [|discriminate].
  destruct (bool_decide (issue_reporterId i ≠ req_id u) && _ && _) eqn:Hauth;
    [discriminate|].
  destruct (Prisma.enumOk Prisma.Status _) eqn:Hs; [|discriminate].
  destruct (Prisma.enumOk Prisma.Category _) eqn:Hc; [|discriminate].
  destruct (Hre _ _ Hi) as [r Hr].
  simpl. intros H. injection H as <- <-.
  eexists i, _, r, _. simpl. rewrite Hr. split_and!.
  - reflexivity.
  - apply lookup_insert_eq.
  - reflexivity.
  - reflexivity.
  - destruct (body_status (body req)) as [s|] eqn:Hst; simpl; [|done].
    apply bool_decide_eq_true, status_not_empty in Hs.
    rewrite (bool_decide_eq_false_2 _ Hs). simpl.
    destruct (decide (s = issue_status i)) as [->|Hne].
    + by rewrite bool_decide_eq_false_2 by (intros ?; congruence).
    + rewrite bool_decide_eq_true_2 by congruence. simpl.
      by destruct (mailer _).
  - intros m e.
    destruct (truthy _ && _); simpl; [|by intros ?%elem_of_nil].
    destruct (mailer (StatusUpdateEmail _ _ _ _ _)) as [e'|] eqn:Hm; simpl.
    + intros ->%list_elem_of_singleton Hme. rewrite Hm in Hme.
      injection Hme as ->. apply list_elem_of_singleton. reflexivity.
    + intros ->%list_elem_of_singleton Hme. congruence.
  - intros mailer'. rewrite updateIssue_unfold. cbv zeta.
    rewrite Hi, Hu, Hauth, Hs, Hc. simpl. rewrite Hr. eexists. split; reflexivity.
Qed.

Lemma demo_reportersExist : reportersExist Demo.db.
Proof.
  intros k i. unfold Demo.db. simpl. intros H.
  repeat (apply lookup_insert_Some in H as [[<- <-]|[_ H]]; [by eexists|]).
  by rewrite lookup_empty in H.
Qed.

(** Scenario B of the spec with the mail server down: the notification is
    attempted once with REPORTED and RESOLVED, the failure is logged and Bob
    still gets his 200. *)
Lemma status_change_notification_witness :
  ∃ w' i',
    updateIssue Demo.failing
      (Demo.by_ Demo.bob "i1" (Demo.withStatus "RESOLVED")) Demo.world =
      (w', Done (Sent 200 (JIssueWithReporter i'
                             (Some (mkReporter "u1" "Alice" "alice@city.org"))))) ∧
    mailAttempts (w_trace w') =
      [StatusUpdateEmail "alice@city.org" "Alice" i' "REPORTED" "RESOLVED"] ∧
    logged (w_trace w') = [mkError "Error" "connect ECONNREFUSED"].
Proof.
  eexists _, _. split; [reflexivity|].
  destruct (status_change_notification Demo.failing
              (Demo.by_ Demo.bob "i1" (Demo.withStatus "RESOLVED")) Demo.world
              _ _ demo_reportersExist eq_refl)
    as (i & i' & r & evs & Hi & Hi' & Hr & Ht & Hmail & Hlog & _).
  injection Hi as <-. injection Hr as <-.
  simpl in Hi'. rewrite lookup_insert_eq in Hi'. injection Hi' as <-.
  simpl in Ht. rewrite <- Ht in Hmail.
  split; [exact Hmail | reflexivity].
Defined.

(** ** Upvotes *)

Lemma upvoteIssue_unfold req w :
  upvoteIssue req w =
  let id := params_id req in
  match issues (w_db w) !! id with
  | None => (w, Done (Sent 404 (JError "Issue not found")))
  | Some i =>
      let i' := Prisma.applyUpdate
                  (Prisma.mkIssueUpdate None None None None (Some 1)) i in
      (mkWorld (mkDb (users (w_db w)) (<[id := i']> (issues (w_db w)))
                     (comments (w_db w)))
               (w_now w) (w_trace w ++ [IssueWritten id]),
       Done (Sent 200 (JIssue i')))
  end.
Proof.
  unfold upvoteIssue. js_unfold. cbv zeta. simpl.
  destruct (issues (w_db w) !! params_id req) as [i|] eqn:Hi; [|done].
  simpl. by rewrite Hi.
Qed.

Lemma upvoteIssue_once req w n :
  upvotesOf w (params_id req) = Some n →
  upvotesOf (upvoteIssue req w).1 (params_id req) = Some (n + 1).
Proof.
  unfold upvotesOf. rewrite upvoteIssue_unfold. cbv zeta.
  destruct (issues (w_db w) !! params_id req) as [i|]; [|discriminate].
  simpl. rewrite lookup_insert_eq. simpl. intros [= <-]. done.
Qed.

Lemma serve_upvotes reqs : ∀ w id n,
  Forall (λ req, params_id req = id) reqs →
  upvotesOf w id = Some n →
  upvotesOf (serve upvoteIssue reqs w) id = Some (n + Z.of_nat (length reqs)).
Proof.
  induction reqs as [|req reqs IH]; intros w id n Hall Hn; simpl.
  - by rewrite Z.add_0_r.
  - apply Forall_cons in Hall as [<- Hall].
    rewrite (IH _ _ (n + 1)); [f_equal; lia | done |].
    by apply upvoteIssue_once.
Qed.

(** C6.  Each upvote of an existing issue is answered 200 and adds exactly 1
    to its counter, whoever sends it (the handler never looks at the actor);
    [k] upvotes in a row, by the same or by different actors, add exactly
    [k], and along the way the counter never goes down. *)
Theorem upvote_counts (reqs : list Request) (w : World) (id : string) (i : Issue) :
  issues (w_db w) !! id = Some i →
  Forall (λ req, params_id req = id) reqs →
  (∀ req, params_id req = id →
     ∃ w' i', upvoteIssue req w = (w', Done (Sent 200 (JIssue i'))) ∧
              issues (w_db w') !! id = Some i' ∧
              issue_upvotes i' = issue_upvotes i + 1) ∧
  upvotesOf (serve upvoteIssue reqs w) id =
    Some (issue_upvotes i + Z.of_nat (length reqs)) ∧
  (∀ j k, (j ≤ k)%nat →
     ∃ nj nk, upvotesOf (serve upvoteIssue (take j reqs) w) id = Some nj ∧
              upvotesOf (serve upvoteIssue (take k reqs) w) id = Some nk ∧
              issue_upvotes i ≤ nj ≤ nk).
Proof.
  intros Hi Hall.
  assert (Hn : upvotesOf w id = Some (issue_upvotes i))
    by (unfold upvotesOf; by rewrite Hi).
  split_and!.
  - intros req <-. rewrite upvoteIssue_unfold. cbv zeta. rewrite Hi.
    eexists _, _. split; [reflexivity|]. simpl.
    split; [apply lookup_insert_eq | reflexivity].
  - by apply serve_upvotes.
  - intros j k Hjk. eexists _, _. split_and!.
    + apply serve_upvotes; [by apply Forall_take | done].
    + apply serve_upvotes; [by apply Forall_take | done].
    + lia.
    + rewrite !length_take. lia.
Qed.

(** Carol upvotes the pothole twice and Bob once: from 3 to 6. *)
Lemma upvote_counts_witness :
  upvotesOf Demo.world "i1" = Some 3 ∧
  upvotesOf
    (serve upvoteIssue
       [Demo.by_ Demo.carol "i1" emptyBody; Demo.by_ Demo.carol "i1" emptyBody;
        Demo.by_ Demo.bob "i1" emptyBody] Demo.world) "i1" = Some 6.
Proof.
  split; [reflexivity|].
  apply (upvote_counts
           [Demo.by_ Demo.carol "i1" emptyBody; Demo.by_ Demo.carol "i1" emptyBody;
            Demo.by_ Demo.bob "i1" emptyBody] Demo.world "i1" Demo.pothole).
  - reflexivity.
  - repeat constructor.
Defined.

(** ** Authentication *)

Lemma split_cons sep s : ∃ piece rest, split sep s = piece :: rest.
Proof.
  induction s as [|c s (piece & rest & IH)]; simpl; [by eauto|].
  destruct (Ascii.eqb c sep); [by eauto|]. rewrite IH. eauto.
Qed.

Lemma prefix_String c s h :
  String.prefix (String c s) h = true →
  ∃ h', h = String c h' ∧ String.prefix s h' = true.
Proof.
  destruct h as [|c' h']; simpl; [discriminate|].
  destruct (ascii_dec c c') as [<-|]; [eauto | discriminate].
Qed.

(** The token of a header that starts with [Bearer ] is what follows, up to
    the next space. *)
Lemma bearer_token h :
  String.prefix "Bearer " h = true →
  ∃ rest t more, h = "Bearer " +:+ rest ∧ split " " rest = t :: more ∧
                 split " " h !! 1%nat = Some t.
Proof.
  intros H.
  apply prefix_String in H as (h1 & -> & H).
  apply prefix_String in H as (h2 & -> & H).
  apply prefix_String in H as (h3 & -> & H).
  apply prefix_String in H as (h4 & -> & H).
  apply prefix_String in H as (h5 & -> & H).
  apply prefix_String in H as (h6 & -> & H).
  apply prefix_String in H as (rest & -> & _).
  destruct (split_cons " " rest) as (t & more & Hs).
  exists rest, t, more. split_and!; [done..|].
  simpl. by rewrite Hs.
Qed.

Lemma route_guard m next req w :
  route [m; next] req w =
  match m req w with
  | (w', Continue req') => next req' w'
  | r => r
  end.
Proof.
  simpl. destruct (m req w) as [w' [o|req']]; [done|].
  by destruct (next req' w') as [? []].
Qed.

Lemma authMiddleware_unfold verify req w :
  authMiddleware verify req w =
  (w, match headers_authorization req with
      | None => Done (Sent 401 (JError "Not authenticated. Please log in"))
      | Some h =>
          if bool_decide (h = "") || negb (String.prefix "Bearer " h)
          then Done (Sent 401 (JError "Not authenticated. Please log in"))
          else match split " " h !! 1%nat with
               | None => Done (Sent 401 (JError "Invalid token. Please log in again"))
               | Some t =>
                   match verify t with
                   | inl e => Done (authCatch e)
                   | inr id =>
                       match users (w_db w) !! id with
                       | None =>
                           Done (Sent 401 (JError
                             "The user belonging to this token no longer exists"))
                       | Some u => Continue (attach u req)
                       end
                   end
               end
      end).
Proof.
  unfold authMiddleware. js_unfold.
  destruct (headers_authorization req) as [h|]; simpl; [|done].
  rewrite negb_involutive.
  destruct (bool_decide (h = "") || negb (String.prefix "Bearer " h)); [done|].
  destruct (split _ _ !! _) as [t|]; [|done].
  destruct (verify t) as [e|id]; [done|]. simpl.
  by destruct (users (w_db w) !! id).
Qed.

Lemma authMiddleware_world verify req w : (authMiddleware verify req w).1 = w.
Proof. by rewrite authMiddleware_unfold. Qed.

(** C9.  A request without an Authorization header, or with one that does
    not start with [Bearer ], a token the verifier rejects as invalid, an
    expired token, and a token whose subject is not a stored user are each
    answered 401 without the next function of the route being entered; a
    verified token of a stored user enters it with that user's id, email,
    name and role as [req.user].  The middleware writes nothing. *)
Theorem authMiddleware_contract
    (verify : Verifier) (next : Middleware) (req : Request) (w : World) :
  let guarded := route [authMiddleware verify; next] in
  let header := headers_authorization req in
  let rejected message := (w, Done (Sent 401 (JError message))) in
  (header = None ∨ (∃ h, header = Some h ∧ String.prefix "Bearer " h = false) →
     guarded req w = rejected "Not authenticated. Please log in") ∧
  (∀ h, header = Some h → String.prefix "Bearer " h = true →
     ∃ t, split " " h !! 1%nat = Some t ∧
       (∀ e, verify t = inl e → error_name e = "JsonWebTokenError" →
          guarded req w = rejected "Invalid token. Please log in again") ∧
       (∀ e, verify t = inl e → error_name e = "TokenExpiredError" →
          guarded req w = rejected "Your token has expired. Please log in again") ∧
       (∀ id, verify t = inr id → users (w_db w) !! id = None →
          guarded req w =
            rejected "The user belonging to this token no longer exists") ∧
       (∀ id u, verify t = inr id → users (w_db w) !! id = Some u →
          user (attach u req) =
            Some (mkReqUser (user_id u) (user_email u) (user_name u) (user_role u)) ∧
          authMiddleware verify req w = (w, Continue (attach u req)) ∧
          guarded req w = next (attach u req) w)).
Proof.
  cbv zeta. rewrite route_guard, authMiddleware_unfold. split.
  - intros [-> | (h & -> & Hp)]; [done|].
    rewrite Hp. by rewrite orb_true_r.
  - intros h -> Hp.
    destruct (bearer_token h Hp) as (rest & t & more & Hrest & Hs & Ht).
    exists t. split; [done|].
    rewrite bool_decide_eq_false_2 by by rewrite Hrest.
    rewrite Hp, Ht. cbn [negb orb].
    split_and!.
    + intros e -> He. unfold authCatch. by rewrite He.
    + intros e -> He. unfold authCatch. by rewrite He.
    + by intros id -> ->.
    + by intros id u -> ->.
Qed.

(** An upvote with an expired token never reaches the controller; with the
    administrator's token it does. *)
Lemma authMiddleware_contract_witness :
  router.post_upvote Demo.verify
    (incoming (Some "Bearer old") "i1" emptyQuery emptyBody) Demo.world =
    (Demo.world,
     Done (Sent 401 (JError "Your token has expired. Please log in again"))) ∧
  router.post_upvote Demo.verify
    (incoming (Some "Bearer tok-u3") "i1" emptyQuery emptyBody) Demo.world =
    upvoteIssue (Demo.by_ Demo.root "i1" emptyBody) Demo.world.
Proof.
  split.
  - destruct (authMiddleware_contract Demo.verify upvoteIssue
                (incoming (Some "Bearer old") "i1" emptyQuery emptyBody)
                Demo.world) as [_ H].
    destruct (H "Bearer old" eq_refl eq_refl) as (t & Ht & _ & Hexpired & _).
    injection Ht as <-.
    exact (Hexpired (mkError "TokenExpiredError" "jwt expired") eq_refl eq_refl).
  - destruct (authMiddleware_contract Demo.verify upvoteIssue
                (incoming (Some "Bearer tok-u3") "i1" emptyQuery emptyBody)
                Demo.world) as [_ H].
    destruct (H "Bearer tok-u3" eq_refl eq_refl) as (t & Ht & _ & _ & _ & Hok).
    injection Ht as <-.
    destruct (Hok "u3" Demo.root eq_refl eq_refl) as (_ & _ & Hroute).
    unfold router.post_upvote. rewrite Hroute. reflexivity.
Defined.

(** ** Creating an issue *)

Lemma createIssue_unfold mailer req w :
  createIssue mailer req w =
  let b := body req in
  if negb (bool_decide (validationResult req = []))
  then (w, Done (Sent 400 (JValidation (validationResult req))))
  else match user req with
  | None => (w, Done (NextError typeError))
  | Some u =>
    match body_title b, body_description b, body_location b, body_category b with
    | Some title, Some description, Some location, Some category =>
      if negb (bool_decide (category ∈ Prisma.Category))
      then (w, Done (NextError Prisma.validationError))
      else match users (w_db w) !! req_id u with
      | None => (w, Done (NextError Prisma.foreignKeyViolation))
      | Some r =>
        let id := fresh (dom (issues (w_db w))) in
        let i := mkIssue id title description location (body_latitude b)
                   (body_longitude b) category "REPORTED" 0
                   (default [] (body_images b)) (req_id u) (w_now w) in
        let m1 := IssueCreatedEmail (user_email r) (user_name r) i in
        let m2 := AdminNotificationEmail i in
        (mkWorld (mkDb (users (w_db w)) (<[id := i]> (issues (w_db w)))
                       (comments (w_db w)))
                 (S (w_now w))
                 (w_trace w ++ IssueInserted id ::
                    (MailAttempt m1 ::
                       match mailer m1 with
                       | Some e => [ConsoleError "Failed to send issue creation email:" e]
                       | None => []
                       end) ++
                    (MailAttempt m2 ::
                       match mailer m2 with
                       | Some e => [ConsoleError "Failed to send admin notification email:" e]
                       | None => []
                       end)),
         Done (Sent 201 (JIssueWithReporter i (Some (Prisma.reporterOf r)))))
      end
    | _, _, _, _ => (w, Done (NextError Prisma.validationError))
    end
  end.
Proof.
  unfold createIssue. js_unfold. cbv zeta.
  destruct (negb _); [done|].
  destruct (user req) as [u|]; [|done].
  destruct (body_title (body req)) as [title|]; [|done].
  destruct (body_description (body req)) as [description|]; [|done].
  destruct (body_location (body req)) as [location|]; [|done].
  destruct (body_category (body req)) as [category|]; [|done].
  cbn -[fresh].
  destruct (negb (bool_decide (category ∈ Prisma.Category))); [done|].
  destruct (users (w_db w) !! req_id u) as [r|]; [|done].
  cbn -[fresh].
  destruct (mailer (IssueCreatedEmail _ _ _)); cbn -[fresh];
    destruct (mailer (AdminNotificationEmail _)); cbn -[fresh];
    by rewrite <- ?app_assoc.
Qed.

Lemma route_cons m ms req w :
  route (m :: ms) req w =
  match m req w with
  | (w', Continue req') => route ms req' w'
  | r => r
  end.
Proof. reflexivity. Qed.

Lemma route_one m req w : route [m] req w = m req w.
Proof. simpl. by destruct (m req w) as [? []]. Qed.

(** The middleware lets a request through only for a stored user, whose
    projection it attaches. *)
Lemma authMiddleware_continue_inv verify req w w1 req1 :
  authMiddleware verify req w = (w1, Continue req1) →
  w1 = w ∧ ∃ k u, users (w_db w) !! k = Some u ∧ req1 = attach u req.
Proof.
  rewrite authMiddleware_unfold. intros [= <- H]. split; [done|].
  destruct (headers_authorization req) as [h|]; [|discriminate].
  destruct (bool_decide (h = "") || _); [discriminate|].
  destruct (split _ _ !! _) as [t|]; [|discriminate].
  destruct (verify t) as [e|k].
  { unfold authCatch in H. repeat case_bool_decide; discriminate. }
  destruct (users (w_db w) !! k) as [u|] eqn:Hu; [|discriminate].
  injection H as <-. eauto.
Qed.

Lemma failures_nil vs b :
  failures vs b = [] ↔ Forall (λ v, passes (v_check v) (v_field v b) = true) vs.
Proof.
  unfold failures. induction vs as [|v vs IH]; [done|].
  rewrite filter_cons, Forall_cons.
  destruct (passes (v_check v) (v_field v b)); case_decide; try done.
  - rewrite IH. tauto.
  - split; [discriminate | intros [? _]; discriminate].
Qed.

Lemma passes_notEmpty v : passes notEmpty v = truthy v.
Proof. by destruct v. Qed.

Lemma passes_category v :
  passes (isIn Prisma.Category) v = true ↔ ∃ c, v = Some c ∧ c ∈ Prisma.Category.
Proof.
  unfold passes. rewrite bool_decide_eq_true. destruct v as [c|]; simpl.
  - split; [eauto | by intros (? & [= <-] & ?)].
  - split; [|by intros (? & ? & _)].
    intros H. apply list_elem_of_In in H. simpl in H.
    repeat destruct H as [H|H]; try discriminate H. done.
Qed.

(** The findings of the creation route's validators, field by field. *)
Lemma issueValidators_pass b :
  failures issueValidators b = [] ↔
  truthy (body_title b) = true ∧ truthy (body_description b) = true ∧
  truthy (body_location b) = true ∧
  ∃ c, body_category b = Some c ∧ c ∈ Prisma.Category.
Proof.
  rewrite failures_nil. unfold issueValidators.
  rewrite !Forall_cons, Forall_nil. cbn [v_check v_field].
  rewrite !passes_notEmpty.
  change (isIn _) with (isIn Prisma.Category). rewrite passes_category. tauto.
Qed.

Lemma demo_usersKeyed : usersKeyed Demo.db.
Proof.
  intros k u. unfold Demo.db. simpl. intros H.
  repeat (apply lookup_insert_Some in H as [[<- <-]|[_ H]]; [done|]).
  by rewrite lookup_empty in H.
Qed.

(** C7.  For a creation request that passes authentication: when title,
    description or location is missing or empty, or the category is not one
    of the eight, the route answers 400 with the findings and writes
    nothing; otherwise it answers 201 with a new issue in status REPORTED
    whose reporter is the actor, stored under a fresh id with the fields of
    the body, whatever the mailer does. *)
Theorem createIssue_contract
    (verify : Verifier) (mailer : Mailer) (authorization : option string)
    (id : string) (q : Query) (b : ReqBody) (w w1 : World) (req1 : Request)
    (actor : ReqUser) :
  let req := incoming authorization id q b in
  let complete :=
    truthy (body_title b) = true ∧ truthy (body_description b) = true ∧
    truthy (body_location b) = true ∧
    ∃ c, body_category b = Some c ∧ c ∈ Prisma.Category in
  usersKeyed (w_db w) →
  authMiddleware verify req w = (w1, Continue req1) →
  user req1 = Some actor →
  (¬ complete →
     ∃ errors, errors ≠ [] ∧
       router.post_issues verify mailer req w =
         (w, Done (Sent 400 (JValidation errors)))) ∧
  (complete →
     ∃ w' issue reporter,
       router.post_issues verify mailer req w =
         (w', Done (Sent 201 (JIssueWithReporter issue reporter))) ∧
       issue_status issue = "REPORTED" ∧
       issue_reporterId issue = req_id actor ∧
       issues (w_db w) !! issue_id issue = None ∧
       issues (w_db w') = <[issue_id issue := issue]> (issues (w_db w)) ∧
       Some (issue_title issue) = body_title b ∧
       Some (issue_description issue) = body_description b ∧
       Some (issue_location issue) = body_location b ∧
       Some (issue_category issue) = body_category b).
Proof.
  intros req complete Hkeyed Hauth Hactor.
  apply authMiddleware_continue_inv in Hauth as Hinv.
  destruct Hinv as (-> & k & u & Hu & ->).
  simpl in Hactor. injection Hactor as <-.
  unfold router.post_issues.
  rewrite route_cons, Hauth, route_cons. cbn [validate].
  rewrite route_one, createIssue_unfold. cbv zeta.
  cbn [validationResult validationErrors attach body user req incoming app].
  split.
  - intros Hn. exists (failures issueValidators b).
    assert (Hne : failures issueValidators b ≠ [])
      by (intros He; by apply Hn, issueValidators_pass).
    split; [done|]. by rewrite bool_decide_eq_false_2.
  - intros (Ht & Hd & Hl & c & Hc & Hcat).
    assert (Hpass : failures issueValidators b = [])
      by (apply issueValidators_pass; eauto 10).
    rewrite (bool_decide_eq_true_2 _ Hpass). cbn [negb].
    destruct (body_title b) as [t|]; [|discriminate].
    destruct (body_description b) as [d|]; [|discriminate].
    destruct (body_location b) as [l|]; [|discriminate].
    rewrite Hc, (bool_decide_eq_true_2 _ Hcat). cbn [negb req_id].
    rewrite (Hkeyed _ _ Hu), Hu.
    eexists _, _, _. split; [reflexivity|].
    cbn -[fresh]. split_and!; try done.
    apply not_elem_of_dom, is_fresh.
Qed.

(** Scenario A of the spec: Alice reports a pothole while the mail server
    is down. *)
Lemma createIssue_contract_witness :
  ∃ w' issue,
    router.post_issues Demo.verify Demo.failing
      (incoming (Some "Bearer tok-u1") "" emptyQuery Demo.scenarioA) Demo.world =
      (w', Done (Sent 201 (JIssueWithReporter issue
                             (Some (mkReporter "u1" "Alice" "alice@city.org"))))) ∧
    issue_status issue = "REPORTED" ∧ issue_reporterId issue = "u1" ∧
    issue_category issue = "ROADS".
Proof.
  eexists _, _. split; [reflexivity|].
  destruct (createIssue_contract Demo.verify Demo.failing (Some "Bearer tok-u1")
              "" emptyQuery Demo.scenarioA Demo.world _ _
              (mkReqUser "u1" "alice@city.org" "Alice" "CITIZEN")
              demo_usersKeyed eq_refl eq_refl) as [_ Hok].
  destruct Hok as (w' & issue & reporter & Hrun & Hs & Hr & _ & _ & _ & _ & _ & Hc).
  { split_and!; try reflexivity. exists "ROADS". split; [done|].
    unfold Prisma.Category. set_solver. }
  injection Hrun as <- <- <-. split_and!; reflexivity.
Defined.

(** ** Listing issues *)


#[local] Instance newer_total : Total Prisma.newer.
Proof. intros a b. unfold Prisma.newer. lia. Qed.


Lemma getAllIssues_unfold req w :
  getAllIssues req w =
  let page := default 1 (q_page (query req)) in
  let limit := default 10 (q_limit (query req)) in
  let skip := (page - 1) * limit in
  let f := Prisma.mkIssueWhere (filterKey (q_status (query req)))
                               (filterKey (q_category (query req))) in
  if negb (Prisma.enumOk Prisma.Status (Prisma.where_status f) &&
           Prisma.enumOk Prisma.Category (Prisma.where_category f))
  then (w, Done (NextError Prisma.validationError))
  else if skip <? 0 then (w, Done (NextError Prisma.validationError))
  else
    let rows := Prisma.row (w_db w) <$>
                  Prisma.window skip limit (Prisma.selected f (w_db w)) in
    let total := length (Prisma.selected f (w_db w)) in
    (w, Done (Sent 200 (JIssueList (length rows)
                          (mkPagination total page limit (ceil_div total limit))
                          rows))).
Proof.
  unfold getAllIssues. js_unfold. cbv zeta.
  cbn [Prisma.where_status Prisma.where_category].
  destruct (negb _); [done|]. simpl.
  by destruct (_ <? 0).
Qed.

Lemma row_issue_row d (l : list Issue) : row_issue <$> (Prisma.row d <$> l) = l.
Proof. induction l as [|i l IH]; [done|]. rewrite !fmap_cons. by rewrite IH. Qed.

(** [Math.ceil] of a quotient with a positive divisor. *)
Lemma ceil_div_positive total limit :
  1 ≤ limit →
  ∃ pages, ceil_div total limit = Num pages ∧
           (pages - 1) * limit < Z.of_nat total ≤ pages * limit.
Proof.
  intros Hl. unfold ceil_div.
  rewrite (proj2 (Z.eqb_neq limit 0)) by lia.
  eexists. split; [reflexivity|].
  pose proof (Z.div_mod (- Z.of_nat total) limit ltac:(lia)) as Hdm.
  pose proof (Z.mod_pos_bound (- Z.of_nat total) limit ltac:(lia)) as Hb.
  nia.
Qed.




(** ** What the endpoints write *)

Lemma deleteIssue_unfold req w :
  deleteIssue req w =
  let id := params_id req in
  match issues (w_db w) !! id with
  | None => (w, Done (Sent 404 (JError "Issue not found")))
  | Some i =>
    match user req with
    | None => (w, Done (NextError typeError))
    | Some u =>
      if bool_decide (issue_reporterId i ≠ req_id u) &&
         bool_decide (req_role u ≠ "ADMIN")
      then (w, Done (Sent 403 (JError "Not authorized to delete this issue")))
      else
        (mkWorld
           (mkDb (users (w_db w)) (delete id (issues (w_db w)))
                 (filter (λ kv, comment_issueId kv.2 ≠ id) (comments (w_db w))))
           (w_now w)
           (w_trace w ++ [CommentsRemovedOf id; IssueRemoved id]),
         Done (Sent 200 (JMessage "Issue deleted successfully")))
    end
  end.
Proof.
  unfold deleteIssue. js_unfold. cbv zeta. simpl.
  destruct (issues (w_db w) !! params_id req) as [i|] eqn:Hi; [|done].
  destruct (user req) as [u|]; [|done]. simpl.
  destruct (bool_decide _ && _); [done|]. simpl. rewrite Hi. simpl.
  by rewrite <- app_assoc.
Qed.

Lemma addComment_unfold req w :
  addComment req w =
  let id := params_id req in
  if negb (bool_decide (validationResult req = []))
  then (w, Done (Sent 400 (JValidation (validationResult req))))
  else match issues (w_db w) !! id with
  | None => (w, Done (Sent 404 (JError "Issue not found")))
  | Some _ =>
    match user req with
    | None => (w, Done (NextError typeError))
    | Some u =>
      match body_content (body req) with
      | None => (w, Done (NextError Prisma.validationError))
      | Some text =>
        match users (w_db w) !! req_id u with
        | None => (w, Done (NextError Prisma.foreignKeyViolation))
        | Some author =>
          let cid := fresh (dom (comments (w_db w))) in
          let c := mkComment cid text id (req_id u) (w_now w) in
          (mkWorld (mkDb (users (w_db w)) (issues (w_db w))
                         (<[cid := c]> (comments (w_db w))))
                   (S (w_now w)) (w_trace w ++ [CommentInserted cid]),
           Done (Sent 201 (JComment c (Some (Prisma.publicUser author)))))
        end
      end
    end
  end.
Proof.
  unfold addComment. js_unfold. cbv zeta.
  destruct (negb _); [done|]. cbn -[fresh].
  destruct (issues (w_db w) !! params_id req) as [i|] eqn:Hi; [|done].
  destruct (user req) as [u|]; [|done]. cbn -[fresh].
  destruct (body_content (body req)) as [text|]; [|done].
  rewrite Hi.
  destruct (users (w_db w) !! req_id u) as [author|]; [|done].
  reflexivity.
Qed.

Lemma getUserById_world req w : (getUserById req w).1 = w.
Proof.
  unfold getUserById. js_unfold. cbv zeta.
  destruct (user req) as [u|]; [|done]. simpl.
  destruct (bool_decide _ && _); [done|]. simpl.
  by destruct (users (w_db w) !! params_id req).
Qed.

Lemma updateUser_unfold req w :
  updateUser req w =
  let id := params_id req in
  match user req with
  | None => (w, Done (NextError typeError))
  | Some u =>
    if bool_decide (id ≠ req_id u) && bool_decide (req_role u ≠ "ADMIN")
    then (w, Done (Sent 403 (JError "Not authorized to update this user")))
    else match users (w_db w) !! id with
    | None => (w, Done (Sent 404 (JError "User not found")))
    | Some old =>
      let new := Prisma.applyUserUpdate
                   (Prisma.mkUserUpdate (body_name (body req))
                      (body_profilePicture (body req)) None) old in
      (mkWorld (mkDb (<[id := new]> (users (w_db w))) (issues (w_db w))
                     (comments (w_db w)))
               (w_now w) (w_trace w ++ [UserWritten id]),
       Done (Sent 200 (JUser (Prisma.publicUser new) None None)))
    end
  end.
Proof.
  unfold updateUser. js_unfold. cbv zeta.
  destruct (user req) as [u|]; [|done]. simpl.
  destruct (bool_decide _ && _); [done|]. simpl.
  destruct (users (w_db w) !! params_id req) as [old|] eqn:Ho; [|done].
  simpl. by rewrite Ho.
Qed.

Lemma enumOk_elem enum s : Prisma.enumOk enum (Some s) = true → s ∈ enum.
Proof. apply bool_decide_eq_true. Qed.

Lemma getIssueById_world req w : (getIssueById req w).1 = w.
Proof.
  unfold getIssueById. js_unfold. cbv zeta. simpl.
  by destruct (issues (w_db w) !! params_id req).
Qed.

Lemma getComments_world req w : (getComments req w).1 = w.
Proof.
  unfold getComments, Prisma.comment_findMany. js_unfold. cbv zeta. simpl.
  by destruct (issues (w_db w) !! params_id req).
Qed.

Lemma getUserIssues_world req w : (getUserIssues req w).1 = w.
Proof.
  unfold getUserIssues, Prisma.issue_findManyOf. js_unfold. cbv zeta.
  destruct (user req) as [u|]; [|done]. simpl.
  destruct (bool_decide _ && _ && _); [done|]. simpl.
  by destruct (users (w_db w) !! params_id req).
Qed.

Lemma updateUserRole_unfold req w :
  updateUserRole req w =
  let id := params_id req in
  let role := body_role (body req) in
  if negb (includes ["CITIZEN"; "OFFICIAL"; "ADMIN"] role)
  then (w, Done (Sent 400 (JError "Invalid role")))
  else match users (w_db w) !! id with
  | None => (w, Done (Sent 404 (JError "User not found")))
  | Some old =>
    let new := Prisma.applyUserUpdate (Prisma.mkUserUpdate None None role) old in
    (mkWorld (mkDb (<[id := new]> (users (w_db w))) (issues (w_db w))
                   (comments (w_db w)))
             (w_now w) (w_trace w ++ [UserWritten id]),
     Done (Sent 200 (JUser (Prisma.publicUser new) None None)))
  end.
Proof.
  unfold updateUserRole. js_unfold. cbv zeta.
  destruct (includes _ _) eqn:Hr; [|done]. simpl.
  destruct (users (w_db w) !! params_id req) as [old|] eqn:Ho; [|done].
  simpl. rewrite Ho.
  assert (Hok : Prisma.enumOk Prisma.Role (body_role (body req)) = true)
    by by destruct (body_role (body req)).
  by rewrite Hok.
Qed.

(** Every endpoint changes the database by writes of these five kinds
    only. *)
Lemma endpoint_writes verify mailer m :
  endpoint verify mailer m →
  ∀ req w, rtc write (w_db w) (w_db (m req w).1).
Proof.
  induction 1 as [| | | | | | | | | | | | | | | vs | | m ms Hm IHm Hms IHms];
    intros req w.
  - rewrite getAllIssues_unfold. cbv zeta.
    destruct (negb _); [done|]. by destruct (_ <? 0).
  - rewrite createIssue_unfold. cbv zeta.
    destruct (negb _); [done|].
    destruct (user req) as [u|]; [|done].
    destruct (body_title (body req)) as [title|]; [|done].
    destruct (body_description (body req)) as [description|]; [|done].
    destruct (body_location (body req)) as [location|]; [|done].
    destruct (body_category (body req)) as [category|]; [|done].
    case_bool_decide as Hcat; [|done]. cbn [negb].
    destruct (users (w_db w) !! req_id u) as [r|] eqn:Hr; [|done].
    apply rtc_once. cbn -[fresh].
    match goal with |- write _ (mkDb _ (<[_ := ?i]> _) _) =>
      apply (write_issue_created _ i) end; cbn -[fresh]; try done.
    apply not_elem_of_dom, is_fresh.
  - rewrite updateIssue_unfold. cbv zeta.
    destruct (issues (w_db w) !! params_id req) as [i|] eqn:Hi; [|done].
    destruct (user req) as [u|]; [|done].
    destruct (bool_decide _ && _ && _); [done|].
    destruct (Prisma.enumOk Prisma.Status _) eqn:Hs; [|done].
    destruct (Prisma.enumOk Prisma.Category _) eqn:Hc; [|done].
    apply rtc_once. cbn. by apply write_issue_updated.
  - rewrite deleteIssue_unfold. cbv zeta.
    destruct (issues (w_db w) !! params_id req) as [i|]; [|done].
    destruct (user req) as [u|]; [|done].
    destruct (bool_decide _ && _); [done|].
    apply rtc_once. cbn. apply write_issue_deleted.
  - rewrite upvoteIssue_unfold. cbv zeta.
    destruct (issues (w_db w) !! params_id req) as [i|] eqn:Hi; [|done].
    apply rtc_once. cbn. by apply write_issue_updated.
  - rewrite addComment_unfold. cbv zeta.
    destruct (negb _); [done|].
    destruct (issues (w_db w) !! params_id req) as [i|] eqn:Hi; [|done].
    destruct (user req) as [u|]; [|done].
    destruct (body_content (body req)) as [text|]; [|done].
    destruct (users (w_db w) !! req_id u) as [author|] eqn:Ha; [|done].
    apply rtc_once. cbn -[fresh].
    match goal with |- write _ (mkDb _ _ (<[_ := ?c]> _)) =>
      apply (write_comment_created _ c) end; cbn -[fresh].
    + apply not_elem_of_dom, is_fresh.
    + by rewrite Hi.
    + by rewrite Ha.
  - by rewrite getIssueById_world.
  - by rewrite getComments_world.
  - done.
  - by rewrite getUserById_world.
  - rewrite updateUser_unfold. cbv zeta.
    destruct (user req) as [u|]; [|done].
    destruct (bool_decide _ && _); [done|].
    destruct (users (w_db w) !! params_id req) as [old|] eqn:Ho; [|done].
    apply rtc_once. cbn. by apply write_user_updated.
  - by rewrite getUserIssues_world.
  - rewrite updateUserRole_unfold. cbv zeta.
    destruct (negb _); [done|].
    destruct (users (w_db w) !! params_id req) as [old|] eqn:Ho; [|done].
    apply rtc_once. cbn. by apply write_user_updated.
  - unfold adminMiddleware. destruct (user req) as [u|]; [|done].
    by case_bool_decide.
  - by rewrite authMiddleware_world.
  - done.
  - done.
  - rewrite route_cons. specialize (IHm req w).
    destruct (m req w) as [w' [o|req']]; [done|].
    etrans; [exact IHm|]. apply IHms.
Qed.

Lemma write_statusesValid d d' : write d d' → statusesValid d → statusesValid d'.
Proof.
  intros Hw Hv. destruct Hw as [i Hfresh _ Hs _ | k i data Hi Hs _ | k | c | k u];
    intros k' i'; cbn; try apply Hv.
  - intros [[<- <-]|[_ H]]%lookup_insert_Some; [|by eapply Hv].
    rewrite Hs. unfold Prisma.defaultStatus, Prisma.Status. set_solver.
  - intros [[<- <-]|[_ H]]%lookup_insert_Some; [|by eapply Hv].
    cbn. destruct (Prisma.update_status data) as [s|]; cbn.
    + by apply enumOk_elem.
    + by eapply Hv.
  - intros [_ H]%lookup_delete_Some. by eapply Hv.
Qed.

Lemma writes_statusesValid d d' :
  rtc write d d' → statusesValid d → statusesValid d'.
Proof. induction 1; eauto using write_statusesValid. Qed.

Lemma reachable_statusesValid w : reachable w → statusesValid (w_db w).
Proof.
  induction 1 as [us now Hus | verify mailer m req w Hm Hw IH].
  - intros k i. cbn. by rewrite lookup_empty.
  - eapply writes_statusesValid; [|exact IH]. by eapply endpoint_writes.
Qed.

Lemma updateIssue_invalid_status mailer req w s :
  body_status (body req) = Some s → s ∉ Prisma.Status →
  ∃ o, updateIssue mailer req w = (w, Done o) ∧ ∀ b, o ≠ Sent 200 b.
Proof.
  intros Hs Hn. rewrite updateIssue_unfold. cbv zeta.
  destruct (issues (w_db w) !! params_id req) as [i|]; [|by eexists].
  destruct (user req) as [u|]; [|by eexists].
  destruct (bool_decide _ && _ && _); [by eexists|].
  rewrite Hs. cbn [Prisma.enumOk]. rewrite (bool_decide_eq_false_2 _ Hn).
  cbn [andb negb]. by eexists.
Qed.

(** C5.  In every world the service can reach, each stored issue has one of
    the five statuses; an update whose body gives any other status is not
    answered 200 and writes nothing, whoever sends it. *)
Theorem status_enum_enforced (w : World) :
  reachable w →
  statusesValid (w_db w) ∧
  (∀ mailer req s,
     body_status (body req) = Some s → s ∉ Prisma.Status →
     ∃ o, updateIssue mailer req w = (w, Done o) ∧ ∀ b, o ≠ Sent 200 b).
Proof.
  intros Hw. split.
  - by apply reachable_statusesValid.
  - intros mailer req s. apply updateIssue_invalid_status.
Qed.

Lemma post_issues_endpoint verify mailer :
  endpoint verify mailer (router.post_issues verify mailer).
Proof. unfold router.post_issues. repeat constructor. Qed.

(** After Alice's first report the one stored issue is REPORTED, and Bob's
    attempt to mark it DONE is refused. *)
Lemma status_enum_enforced_witness :
  reachable Story.afterReport ∧
  (∃ i, issues (w_db Story.afterReport) !! "0" = Some i ∧
        issue_status i = "REPORTED") ∧
  statusesValid (w_db Story.afterReport) ∧
  ∃ o, updateIssue Demo.delivering (Demo.by_ Demo.bob "0" (Demo.withStatus "DONE"))
         Story.afterReport = (Story.afterReport, Done o) ∧
       ∀ b, o ≠ Sent 200 b.
Proof.
  assert (Hreach : reachable Story.afterReport).
  { unfold Story.afterReport.
    apply (reach_step Demo.verify Demo.delivering);
      [apply post_issues_endpoint | apply reach_start, demo_usersKeyed]. }
  split; [exact Hreach|].
  split; [eexists; split; reflexivity|].
  destruct (status_enum_enforced Story.afterReport Hreach) as [Hvalid Hrefused].
  split; [exact Hvalid|].
  apply (Hrefused Demo.delivering (Demo.by_ Demo.bob "0" (Demo.withStatus "DONE"))
           "DONE" eq_refl).
  intros H. apply list_elem_of_In in H. simpl in H.
  repeat (destruct H as [H|H]; [discriminate H|]). exact H.
Defined.

(** ** Referential integrity *)

Lemma write_wf d d' : write d d' → wf_db d → wf_db d'.
Proof.
  intros Hw [Huk Hik Hck Hre Hca Hsv Hcv].
  split; [| | | | |by eapply write_statusesValid|].
  - (* users stored under their id *)
    destruct Hw as [| | | |k u data Hu]; try exact Huk.
    intros k' u'. cbn. intros [[<- <-]|[_ Hlk]]%lookup_insert_Some; [|by eapply Huk].
    cbn. by eapply Huk.
  - (* issues stored under their id *)
    destruct Hw as [i|k i data Hi _ _|k| |]; try exact Hik; intros k' i'; cbn.
    + intros [[<- <-]|[_ Hlk]]%lookup_insert_Some; [done | by eapply Hik].
    + intros [[<- <-]|[_ Hlk]]%lookup_insert_Some; [|by eapply Hik].
      cbn. by eapply Hik.
    + intros [_ Hlk]%lookup_delete_Some. by eapply Hik.
  - (* comments stored under their id *)
    destruct Hw as [| |k|c|]; try exact Hck; intros k' c'; cbn.
    + intros [Hlk _]%map_lookup_filter_Some. by eapply Hck.
    + intros [[<- <-]|[_ Hlk]]%lookup_insert_Some; [done | by eapply Hck].
  - (* every issue has its reporter *)
    destruct Hw as [i _ Hr|k i data Hi _ _|k| |k u data Hu];
      try exact Hre; intros k' i'; cbn.
    + intros [[<- <-]|[_ Hlk]]%lookup_insert_Some; [done | by eapply Hre].
    + intros [[<- <-]|[_ Hlk]]%lookup_insert_Some; [|by eapply Hre].
      cbn. by eapply Hre.
    + intros [_ Hlk]%lookup_delete_Some. by eapply Hre.
    + intros Hlk. apply lookup_insert_is_Some'. right. by eapply Hre.
  - (* every comment has its issue and its author *)
    destruct Hw as [i|k i data Hi _ _|k|c _ Hci Hcu|k u data' Hu];
      try exact Hca; intros k' c'; cbn.
    + intros Hlk. destruct (Hca _ _ Hlk) as [? ?].
      split; [|done]. apply lookup_insert_is_Some'. by right.
    + intros Hlk. destruct (Hca _ _ Hlk) as [? ?].
      split; [|done]. apply lookup_insert_is_Some'. by right.
    + intros [Hlk Hne]%map_lookup_filter_Some. cbn in Hne.
      destruct (Hca _ _ Hlk) as [? ?]. split; [|done].
      apply lookup_delete_is_Some. done.
    + intros [[<- <-]|[_ Hlk]]%lookup_insert_Some; [done | by eapply Hca].
    + intros Hlk. destruct (Hca _ _ Hlk) as [? ?].
      split; [done|]. apply lookup_insert_is_Some'. by right.
  - (* categories *)
    destruct Hw as [i _ _ _ Hc|k i data Hi _ Hc|k| |]; try exact Hcv;
      intros k' i'; cbn.
    + intros [[<- <-]|[_ Hlk]]%lookup_insert_Some; [done | by eapply Hcv].
    + intros [[<- <-]|[_ Hlk]]%lookup_insert_Some; [|by eapply Hcv].
      cbn. destruct (Prisma.update_category data) as [c|]; cbn.
      * by apply enumOk_elem.
      * by eapply Hcv.
    + intros [_ Hlk]%lookup_delete_Some. by eapply Hcv.
Qed.

Lemma writes_wf d d' : rtc write d d' → wf_db d → wf_db d'.
Proof. induction 1; eauto using write_wf. Qed.

(** The service keeps its database well formed. *)
Lemma reachable_wf w : reachable w → wf_db (w_db w).
Proof.
  induction 1 as [us now Hus | verify mailer m req w Hm Hw IH].
  - split; intros k x; cbn; rewrite ?lookup_empty; try done; apply Hus.
  - eapply writes_wf; [|exact IH]. by eapply endpoint_writes.
Qed.

(** * Further properties of the controllers *)

(** Membership in a literal list of strings, and its refutation. *)
Ltac in_enum := apply list_elem_of_In; simpl; tauto.
Ltac not_in_enum H :=
  apply list_elem_of_In in H; simpl in H;
  repeat (destruct H as [H|H]; [discriminate H|]); exact H.

(** ** Comments *)

Lemma route_three m1 m2 m3 req w :
  route [m1; m2; m3] req w =
  match m1 req w with
  | (w1, Continue req1) =>
      match m2 req1 w1 with
      | (w2, Continue req2) => m3 req2 w2
      | r => r
      end
  | r => r
  end.
Proof.
  rewrite route_cons. destruct (m1 req w) as [w1 [o|req1]]; [done|].
  apply route_guard.
Qed.

Lemma commentValidators_findings b :
  failures commentValidators b =
  if truthy (body_content b) then [] else ["Comment content is required"].
Proof.
  unfold failures, commentValidators. rewrite filter_cons, filter_nil.
  cbn [v_check v_field]. rewrite passes_notEmpty.
  by destruct (truthy (body_content b)).
Qed.

(** X1.  The comment route for an authenticated actor: a missing or empty
    content is answered 400 with the validator's message before the issue is
    looked up, so also for an issue that does not exist; with a content, a
    missing issue is answered 404; otherwise the answer is 201 and exactly
    one comment is inserted, under a fresh id, with that content, the
    addressed issue and the actor as author.  Users and issues are not
    touched. *)
Theorem post_comments_contract
    (verify : Verifier) (authorization : option string) (id : string)
    (q : Query) (b : ReqBody) (w w1 : World) (req1 : Request) (actor : ReqUser) :
  let req := incoming authorization id q b in
  usersKeyed (w_db w) →
  authMiddleware verify req w = (w1, Continue req1) →
  user req1 = Some actor →
  (truthy (body_content b) = false →
     router.post_comments verify req w =
       (w, Done (Sent 400 (JValidation ["Comment content is required"])))) ∧
  (truthy (body_content b) = true → issues (w_db w) !! id = None →
     router.post_comments verify req w =
       (w, Done (Sent 404 (JError "Issue not found")))) ∧
  (truthy (body_content b) = true → is_Some (issues (w_db w) !! id) →
     ∃ c author,
       router.post_comments verify req w =
         (mkWorld (mkDb (users (w_db w)) (issues (w_db w))
                        (<[comment_id c := c]> (comments (w_db w))))
                  (S (w_now w)) (w_trace w ++ [CommentInserted (comment_id c)]),
          Done (Sent 201 (JComment c (Some author)))) ∧
       comments (w_db w) !! comment_id c = None ∧
       Some (comment_content c) = body_content b ∧
       comment_issueId c = id ∧
       comment_authorId c = req_id actor ∧
       pu_id author = req_id actor).
Proof.
  intros req Hkeyed Hauth Hactor.
  apply authMiddleware_continue_inv in Hauth as Hinv.
  destruct Hinv as (-> & k & u & Hu & ->).
  simpl in Hactor. injection Hactor as <-.
  unfold router.post_comments.
  rewrite route_three, Hauth. cbn [validate].
  rewrite addComment_unfold. cbv zeta.
  cbn [validationResult validationErrors attach body user req incoming app
       params_id req_id].
  rewrite commentValidators_findings.
  split_and!.
  - by intros ->.
  - intros -> Hi. cbn. by rewrite Hi.
  - intros Ht [i Hi]. rewrite Ht. cbn [bool_decide negb]. rewrite Hi.
    rewrite bool_decide_eq_true_2 by done. cbn [negb].
    destruct (body_content b) as [text|]; [|discriminate].
    rewrite (Hkeyed _ _ Hu), Hu.
    exists (mkComment (fresh (dom (comments (w_db w)))) text id k (w_now w)),
           (Prisma.publicUser u).
    cbn -[fresh]. rewrite (Hkeyed _ _ Hu).
    split_and!; try done. apply not_elem_of_dom, is_fresh.
Qed.

(** Carol comments on the lamp; her empty comment on an issue that does not
    exist is answered 400, not 404. *)
Lemma post_comments_contract_witness :
  (∃ w' c,
     router.post_comments Demo.verify
       (incoming (Some "Bearer tok-u4") "i2" emptyQuery (Demo.withContent "dark"))
       Demo.world =
       (w', Done (Sent 201 (JComment c (Some (Prisma.publicUser Demo.carol))))) ∧
     comment_issueId c = "i2" ∧ comment_authorId c = "u4" ∧
     comment_content c = "dark") ∧
  router.post_comments Demo.verify
    (incoming (Some "Bearer tok-u4") "nowhere" emptyQuery (Demo.withContent ""))
    Demo.world =
    (Demo.world, Done (Sent 400 (JValidation ["Comment content is required"]))).
Proof.
  split.
  - eexists _, _. split; [reflexivity|]. split_and!; reflexivity.
  - refine (proj1 (post_comments_contract Demo.verify (Some "Bearer tok-u4")
                     "nowhere" emptyQuery (Demo.withContent "") Demo.world _ _
                     (mkReqUser "u4" "carol@city.org" "Carol" "CITIZEN")
                     demo_usersKeyed eq_refl eq_refl) eq_refl).
Defined.

Lemma getComments_unfold req w :
  getComments req w =
  (w, match issues (w_db w) !! params_id req with
      | None => Done (Sent 404 (JError "Issue not found"))
      | Some _ =>
          let cs := Prisma.commentsOf (w_db w) (params_id req) in
          Done (Sent 200 (JCommentList (length cs) cs))
      end).
Proof.
  unfold getComments, Prisma.comment_findMany. js_unfold. cbv zeta. simpl.
  by destruct (issues (w_db w) !! params_id req).
Qed.

Lemma getIssueById_unfold req w :
  getIssueById req w =
  (w, match issues (w_db w) !! params_id req with
      | None => Done (Sent 404 (JError "Issue not found"))
      | Some i =>
          Done (Sent 200 (JIssueDetail i
                  (Prisma.publicUser <$> users (w_db w) !! issue_reporterId i)
                  (Prisma.commentsOf (w_db w) (params_id req))))
      end).
Proof.
  unfold getIssueById. js_unfold. cbv zeta. simpl.
  by destruct (issues (w_db w) !! params_id req).
Qed.

#[local] Instance commentNewer_total : Total Prisma.commentNewer.
Proof. intros a b. unfold Prisma.commentNewer. lia. Qed.

Lemma commentsOf_fst d id :
  (Prisma.commentsOf d id).*1 =
  merge_sort Prisma.commentNewer
    (filter (λ c, comment_issueId c = id) (map_to_list (comments d)).*2).
Proof.
  unfold Prisma.commentsOf. rewrite <- list_fmap_compose.
  induction (merge_sort _ _) as [|c l IH]; [done|].
  rewrite fmap_cons. by rewrite IH.
Qed.

Lemma commentsOf_elem_of d id c a :
  (c, a) ∈ Prisma.commentsOf d id ↔
  (∃ k, comments d !! k = Some c) ∧ comment_issueId c = id ∧
  a = Prisma.publicUser <$> users d !! comment_authorId c.
Proof.
  unfold Prisma.commentsOf. rewrite list_elem_of_fmap.
  setoid_rewrite merge_sort_Permutation.
  setoid_rewrite list_elem_of_filter.
  setoid_rewrite list_elem_of_fmap.
  split.
  - intros (c' & [= <- ->] & Hid & [k c''] & -> & Hk%elem_of_map_to_list). eauto.
  - intros ((k & Hk) & Hid & ->). exists c. split; [done|]. split; [done|].
    exists (k, c). split; [done|]. by apply elem_of_map_to_list.
Qed.



Lemma addComment_created_inv req w w' c a :
  addComment req w = (w', Done (Sent 201 (JComment c a))) →
  ∃ actor author,
    user req = Some actor ∧
    is_Some (issues (w_db w) !! params_id req) ∧
    users (w_db w) !! req_id actor = Some author ∧
    a = Some (Prisma.publicUser author) ∧
    comments (w_db w) !! comment_id c = None ∧
    Some (comment_content c) = body_content (body req) ∧
    comment_issueId c = params_id req ∧
    comment_authorId c = req_id actor ∧
    w_db w' = mkDb (users (w_db w)) (issues (w_db w))
                   (<[comment_id c := c]> (comments (w_db w))).
Proof.
  rewrite addComment_unfold. cbv zeta.
  destruct (negb _); [discriminate|].
  destruct (issues (w_db w) !! params_id req) as [i|]; [|discriminate].
  destruct (user req) as [actor|]; [|discriminate].
  destruct (body_content (body req)) as [text|]; [|discriminate].
  destruct (users (w_db w) !! req_id actor) as [author|] eqn:Ha; [|discriminate].
  intros [= <- <- <-]. exists actor, author. cbn -[fresh].
  split_and!; try done. apply not_elem_of_dom, is_fresh.
Qed.

Lemma commentsOf_length_insert d c :
  comments d !! comment_id c = None →
  length (Prisma.commentsOf
            (mkDb (users d) (issues d) (<[comment_id c := c]> (comments d)))
            (comment_issueId c)) =
  S (length (Prisma.commentsOf d (comment_issueId c))).
Proof.
  intros Hfresh.
  rewrite <- !(length_fmap fst), !commentsOf_fst. cbn [comments].
  rewrite !merge_sort_Permutation.
  rewrite (map_to_list_insert _ _ _ Hfresh). rewrite fmap_cons. cbn [snd].
  by rewrite filter_cons_True.
Qed.

(** X3.  A comment that was answered 201 is listed from then on: the
    comment list of its issue contains it with its author, still contains
    every comment it had before, and is longer by exactly one. *)
Theorem comment_round_trip (req req' : Request) (w w' : World) (c : Comment)
    (a : option PublicUser) :
  addComment req w = (w', Done (Sent 201 (JComment c a))) →
  params_id req' = params_id req →
  ∃ cs, getComments req' w' = (w', Done (Sent 200 (JCommentList (length cs) cs))) ∧
    (c, a) ∈ cs ∧
    (∀ x, x ∈ Prisma.commentsOf (w_db w) (params_id req) → x ∈ cs) ∧
    length cs = S (length (Prisma.commentsOf (w_db w) (params_id req))).
Proof.
  intros Hadd Hid.
  apply addComment_created_inv in Hadd
    as (actor & author & Hu & [i Hi] & Hauthor & -> & Hfresh & Hc & Hci & Hca & Hdb).
  rewrite getComments_unfold, Hid, Hdb. cbn [issues]. rewrite Hi. cbv zeta.
  eexists. split; [reflexivity|]. split_and!.
  - apply commentsOf_elem_of. cbn [comments users]. split_and!.
    + exists (comment_id c). apply lookup_insert_eq.
    + done.
    + by rewrite Hca, Hauthor.
  - intros [c0 a0] Hx. apply commentsOf_elem_of in Hx as ([k Hk] & Hid0 & Ha0).
    apply commentsOf_elem_of. cbn [comments users]. split_and!; [|done..].
    exists k. rewrite lookup_insert_ne; [done|]. congruence.
  - rewrite <- Hci. by apply commentsOf_length_insert.
Qed.

(** Carol's comment on the lamp shows up next to the one that was there. *)
Lemma comment_round_trip_witness :
  ∃ w' c cs,
    addComment (Demo.by_ Demo.carol "i2" (Demo.withContent "dark")) Demo.world =
      (w', Done (Sent 201 (JComment c (Some (Prisma.publicUser Demo.carol))))) ∧
    getComments (incoming None "i2" emptyQuery emptyBody) w' =
      (w', Done (Sent 200 (JCommentList 2 cs))) ∧
    (c, Some (Prisma.publicUser Demo.carol)) ∈ cs.
Proof.
  eexists _, _.
  destruct (comment_round_trip
              (Demo.by_ Demo.carol "i2" (Demo.withContent "dark"))
              (incoming None "i2" emptyQuery emptyBody) Demo.world _ _ _
              eq_refl eq_refl) as (cs & Hget & Hin & _ & Hlen).
  exists cs. split; [reflexivity|]. split; [|exact Hin].
  rewrite Hget, Hlen. reflexivity.
Defined.

(** ** Creating, reading and removing an issue *)

(** A 201 from [createIssue]: what was stored and what was tried. *)
Lemma createIssue_created_inv mailer req w w' i r :
  createIssue mailer req w = (w', Done (Sent 201 (JIssueWithReporter i r))) →
  ∃ actor author,
    user req = Some actor ∧
    users (w_db w) !! req_id actor = Some author ∧
    r = Some (Prisma.reporterOf author) ∧
    issues (w_db w) !! issue_id i = None ∧
    issue_reporterId i = req_id actor ∧
    issue_status i = "REPORTED" ∧ issue_upvotes i = 0 ∧
    w_db w' = mkDb (users (w_db w)) (<[issue_id i := i]> (issues (w_db w)))
                   (comments (w_db w)) ∧
    let m1 := IssueCreatedEmail (user_email author) (user_name author) i in
    let m2 := AdminNotificationEmail i in
    w_trace w' =
      (w_trace w ++ IssueInserted (issue_id i) ::
         (MailAttempt m1 ::
            match mailer m1 with
            | Some e => [ConsoleError "Failed to send issue creation email:" e]
            | None => []
            end) ++
         (MailAttempt m2 ::
            match mailer m2 with
            | Some e => [ConsoleError "Failed to send admin notification email:" e]
            | None => []
            end))%list.
Proof.
  rewrite createIssue_unfold. cbv zeta.
  destruct (negb _); [discriminate|].
  destruct (user req) as [actor|]; [|discriminate].
  destruct (body_title (body req)) as [title|]; [|discriminate].
  destruct (body_description (body req)) as [description|]; [|discriminate].
  destruct (body_location (body req)) as [location|]; [|discriminate].
  destruct (body_category (body req)) as [category|]; [|discriminate].
  destruct (negb _); [discriminate|].
  destruct (users (w_db w) !! req_id actor) as [author|] eqn:Ha; [|discriminate].
  intros [= <- <- <-]. exists actor, author. cbn -[fresh].
  split_and!; try done. apply not_elem_of_dom, is_fresh.
Qed.

(** X4.  What was created can be read back: after a 201 from [createIssue],
    fetching the new id answers 200 with the very issue of the response and
    the public projection of its reporter; and in a database without orphan
    comments the new issue starts with no comment. *)
Theorem create_then_read
    (mailer : Mailer) (req req' : Request) (w w' : World) (i : Issue)
    (r : option Reporter) :
  commentsAnchored (w_db w) →
  createIssue mailer req w = (w', Done (Sent 201 (JIssueWithReporter i r))) →
  params_id req' = issue_id i →
  ∃ author,
    users (w_db w) !! issue_reporterId i = Some author ∧
    r = Some (Prisma.reporterOf author) ∧
    getIssueById req' w' =
      (w', Done (Sent 200 (JIssueDetail i (Some (Prisma.publicUser author)) []))) ∧
    getComments req' w' = (w', Done (Sent 200 (JCommentList 0 []))).
Proof.
  intros Hanch Hcreate Hid.
  apply createIssue_created_inv in Hcreate
    as (actor & author & Hu & Ha & -> & Hfresh & Hr & _ & _ & Hdb & _).
  assert (Hnone : Prisma.commentsOf (w_db w') (issue_id i) = []).
  { apply elem_of_nil_inv. intros [c a] Hin.
    apply commentsOf_elem_of in Hin as ([k Hk] & Hci & _).
    rewrite Hdb in Hk. cbn in Hk.
    destruct (Hanch _ _ Hk) as [[i' Hi'] _]. congruence. }
  exists author. rewrite Hr. split; [done|]. split; [done|].
  rewrite getIssueById_unfold, getComments_unfold, Hid, Hnone, Hdb.
  cbn [issues users]. rewrite lookup_insert_eq, Hr, Ha. done.
Qed.

Lemma demo_commentsAnchored : commentsAnchored Demo.db.
Proof.
  intros k c. unfold Demo.db. simpl. intros H.
  repeat (apply lookup_insert_Some in H as [[<- <-]|[_ H]];
          [by split; eexists|]).
  by rewrite lookup_empty in H.
Qed.

(** Alice's report, read back by anyone. *)
Lemma create_then_read_witness :
  ∃ w' i,
    createIssue Demo.failing (Demo.by_ Demo.alice "" Demo.scenarioA) Demo.world =
      (w', Done (Sent 201 (JIssueWithReporter i
                             (Some (mkReporter "u1" "Alice" "alice@city.org"))))) ∧
    getIssueById (incoming None (issue_id i) emptyQuery emptyBody) w' =
      (w', Done (Sent 200 (JIssueDetail i (Some (Prisma.publicUser Demo.alice)) []))).
Proof.
  eexists _, _. split; [reflexivity|].
  destruct (create_then_read Demo.failing
              (Demo.by_ Demo.alice "" Demo.scenarioA)
              (incoming None "0" emptyQuery emptyBody) Demo.world _ _ _
              demo_commentsAnchored eq_refl eq_refl)
    as (author & Ha & _ & Hread & _).
  injection Ha as <-. exact Hread.
Defined.

(** X5.  On a 201 from [createIssue] exactly two mails were attempted after
    the insert, in this order: the confirmation to the reporter's address
    and the notification to the administrators, the second one also when the
    first one failed; each failure is logged; and the response and the stored
    issue are the same under every mailer. *)
Theorem createIssue_notifications
    (mailer : Mailer) (req : Request) (w w' : World) (i : Issue)
    (r : option Reporter) :
  createIssue mailer req w = (w', Done (Sent 201 (JIssueWithReporter i r))) →
  ∃ author evs,
    users (w_db w) !! issue_reporterId i = Some author ∧
    w_trace w' = (w_trace w ++ IssueInserted (issue_id i) :: evs)%list ∧
    mailAttempts evs =
      [IssueCreatedEmail (user_email author) (user_name author) i;
       AdminNotificationEmail i] ∧
    logged evs = omap mailer (mailAttempts evs) ∧
    (∀ mailer', ∃ w'',
       createIssue mailer' req w = (w'', Done (Sent 201 (JIssueWithReporter i r))) ∧
       w_db w'' = w_db w').
Proof.
  intros Hcreate.
  pose proof Hcreate as Hinv. apply createIssue_created_inv in Hinv
    as (actor & author & Hu & Ha & -> & Hfresh & Hr & _ & _ & Hdb & Htrace).
  cbv zeta in Htrace.
  exists author. eexists. rewrite Hr. split; [done|]. split; [exact Htrace|].
  split_and!.
  - by destruct (mailer (IssueCreatedEmail _ _ _)), (mailer (AdminNotificationEmail _)).
  - by destruct (mailer (IssueCreatedEmail _ _ _)) eqn:H1,
               (mailer (AdminNotificationEmail _)) eqn:H2; cbn; rewrite ?H1, ?H2.
  - intros mailer'. revert Hcreate. rewrite !createIssue_unfold. cbv zeta.
    destruct (negb _); [discriminate|].
    rewrite Hu.
    destruct (body_title (body req)) as [title|]; [|discriminate].
    destruct (body_description (body req)) as [description|]; [|discriminate].
    destruct (body_location (body req)) as [location|]; [|discriminate].
    destruct (body_category (body req)) as [category|]; [|discriminate].
    destruct (negb _); [discriminate|].
    rewrite Ha. intros [= <- <-]. eexists. split; reflexivity.
Qed.

(** With the mail server down both mails are still attempted and both
    failures are logged. *)
Lemma createIssue_notifications_witness :
  ∃ w' i,
    createIssue Demo.failing (Demo.by_ Demo.alice "" Demo.scenarioA) Demo.world =
      (w', Done (Sent 201 (JIssueWithReporter i
                             (Some (mkReporter "u1" "Alice" "alice@city.org"))))) ∧
    mailAttempts (w_trace w') =
      [IssueCreatedEmail "alice@city.org" "Alice" i; AdminNotificationEmail i] ∧
    length (logged (w_trace w')) = 2%nat.
Proof.
  eexists _, _. split; [reflexivity|].
  destruct (createIssue_notifications Demo.failing
              (Demo.by_ Demo.alice "" Demo.scenarioA) Demo.world _ _ _ eq_refl)
    as (author & evs & Ha & Ht & Hm & Hl & _).
  injection Ha as <-. injection Ht as <-.
  split; [exact Hm | reflexivity].
Defined.

(** X6.  A deleted issue is gone for every operation: after a 200 from
    [deleteIssue], reading it, listing its comments, upvoting, updating and
    deleting it again are all answered 404; the other issues and the users
    are as they were. *)
Theorem delete_then_gone
    (mailer : Mailer) (req req' : Request) (w w' : World) (b : Json) :
  deleteIssue req w = (w', Done (Sent 200 b)) →
  params_id req' = params_id req →
  let gone := (w', Done (Sent 404 (JError "Issue not found"))) in
  getIssueById req' w' = gone ∧
  getComments req' w' = gone ∧
  upvoteIssue req' w' = gone ∧
  updateIssue mailer req' w' = gone ∧
  deleteIssue req' w' = gone ∧
  (∀ k, k ≠ params_id req → issues (w_db w') !! k = issues (w_db w) !! k) ∧
  users (w_db w') = users (w_db w).
Proof.
  intros Hdel Hid gone. subst gone.
  destruct (deleteIssue_success_inv _ _ _ _ Hdel) as (actor & i & Hu & Hi & Hm).
  rewrite (deleteIssue_granted _ _ _ _ Hu Hi Hm) in Hdel.
  injection Hdel as <- _.
  set (w' := mkWorld _ _ _).
  assert (Hgone : issues (w_db w') !! params_id req' = None)
    by (rewrite Hid; apply lookup_delete_eq).
  split_and!.
  - rewrite getIssueById_unfold. by rewrite Hgone.
  - rewrite getComments_unfold. by rewrite Hgone.
  - by apply upvoteIssue_missing.
  - by apply updateIssue_missing.
  - by apply deleteIssue_missing.
  - intros k Hk. by apply lookup_delete_ne.
  - done.
Qed.

(** Alice deletes her pothole; Carol's upvote then finds nothing. *)
Lemma delete_then_gone_witness :
  ∃ w', deleteIssue (Demo.by_ Demo.alice "i1" emptyBody) Demo.world =
          (w', Done (Sent 200 (JMessage "Issue deleted successfully"))) ∧
        upvoteIssue (Demo.by_ Demo.carol "i1" emptyBody) w' =
          (w', Done (Sent 404 (JError "Issue not found"))) ∧
        issues (w_db w') !! "i2" = Some Demo.lamp.
Proof.
  eexists. split; [reflexivity|].
  destruct (delete_then_gone Demo.delivering
              (Demo.by_ Demo.alice "i1" emptyBody)
              (Demo.by_ Demo.carol "i1" emptyBody) Demo.world _ _ eq_refl eq_refl)
    as (_ & _ & Hup & _ & _ & Hothers & _).
  split; [exact Hup|]. by rewrite Hothers.
Defined.

(** X7.  An upvote changes nothing but the counter: the issue keeps its
    title, description, location, coordinates, category, status, images,
    reporter and creation time; no other issue, no comment and no user is
    touched; the only event is the one write, so no mail is sent. *)
Theorem upvoteIssue_frame (req : Request) (w : World) (i : Issue) :
  issues (w_db w) !! params_id req = Some i →
  ∃ w' i',
    upvoteIssue req w = (w', Done (Sent 200 (JIssue i'))) ∧
    issues (w_db w') !! params_id req = Some i' ∧
    i' = mkIssue (issue_id i) (issue_title i) (issue_description i)
           (issue_location i) (issue_latitude i) (issue_longitude i)
           (issue_category i) (issue_status i) (issue_upvotes i + 1)
           (issue_images i) (issue_reporterId i) (issue_createdAt i) ∧
    (∀ k, k ≠ params_id req → issues (w_db w') !! k = issues (w_db w) !! k) ∧
    users (w_db w') = users (w_db w) ∧
    comments (w_db w') = comments (w_db w) ∧
    w_trace w' = (w_trace w ++ [IssueWritten (params_id req)])%list.
Proof.
  intros Hi. rewrite upvoteIssue_unfold. cbv zeta. rewrite Hi.
  eexists _, _. split; [reflexivity|]. cbn. split_and!; try done.
  - apply lookup_insert_eq.
  - intros k Hk. by apply lookup_insert_ne.
Qed.

Lemma upvoteIssue_frame_witness :
  ∃ w',
    upvoteIssue (Demo.by_ Demo.carol "i2" emptyBody) Demo.world =
      (w', Done (Sent 200 (JIssue
         (mkIssue "i2" "Lamp" "Broken street lamp" "Oak St" None None
                  "ELECTRICITY" "RESOLVED" 1 [] "u4" 1)))) ∧
    mailAttempts (w_trace w') = [] ∧
    issues (w_db w') !! "i1" = Some Demo.pothole.
Proof.
  destruct (upvoteIssue_frame (Demo.by_ Demo.carol "i2" emptyBody) Demo.world
              Demo.lamp eq_refl)
    as (w' & i' & Hrun & _ & -> & Hothers & _ & _ & Ht).
  exists w'. split; [exact Hrun|]. split.
  - by rewrite Ht.
  - by rewrite Hothers.
Defined.

(** * Further properties of the user controller *)

Lemma getUserById_unfold req w :
  getUserById req w =
  (w, match user req with
      | None => Done (NextError typeError)
      | Some u =>
          if bool_decide (params_id req ≠ req_id u) &&
             bool_decide (req_role u ≠ "ADMIN")
          then Done (Sent 403 (JError "Not authorized to view this user"))
          else match users (w_db w) !! params_id req with
               | None => Done (Sent 404 (JError "User not found"))
               | Some row =>
                   Done (Sent 200 (JUser (Prisma.publicUser row)
                     (Some (Prisma.issueCountOf (w_db w) (params_id req)))
                     (Some (Prisma.commentCountOf (w_db w) (params_id req)))))
               end
      end).
Proof.
  unfold getUserById. js_unfold. cbv zeta.
  destruct (user req) as [u|]; [|done]. simpl.
  destruct (bool_decide _ && _); [done|]. simpl.
  by destruct (users (w_db w) !! params_id req).
Qed.

Lemma getUserIssues_unfold req w :
  getUserIssues req w =
  (w, match user req with
      | None => Done (NextError typeError)
      | Some u =>
          if bool_decide (params_id req ≠ req_id u) &&
             bool_decide (req_role u ≠ "ADMIN") &&
             bool_decide (req_role u ≠ "OFFICIAL")
          then Done (Sent 403 (JError "Not authorized to view this user's issues"))
          else match users (w_db w) !! params_id req with
               | None => Done (Sent 404 (JError "User not found"))
               | Some _ =>
                   let rows :=
                     (λ i, (i, Prisma.commentCount (w_db w) (issue_id i))) <$>
                     merge_sort Prisma.newer
                       (filter (λ i, issue_reporterId i = params_id req)
                               (map_to_list (issues (w_db w))).*2) in
                   Done (Sent 200 (JIssuesOf (length rows) rows))
               end
      end).
Proof.
  unfold getUserIssues, Prisma.issue_findManyOf. js_unfold. cbv zeta.
  destruct (user req) as [u|]; [|done]. simpl.
  destruct (bool_decide _ && _ && _); [done|]. simpl.
  by destruct (users (w_db w) !! params_id req).
Qed.

(** X8.  Who may look at or change a user: a profile is shown (200) only to
    the user themselves or an ADMIN, and is updated only by them; the list
    of a user's issues is shown only to the user, an ADMIN or an OFFICIAL.
    Everybody else is answered 403 and nothing is written.  So an OFFICIAL
    can list another user's issues but cannot open that user's profile. *)
Theorem user_access (req : Request) (w : World) (actor : ReqUser) :
  user req = Some actor →
  let self := params_id req = req_id actor in
  let admin := req_role actor = "ADMIN" in
  let official := req_role actor = "OFFICIAL" in
  ((∃ w' b, getUserById req w = (w', Done (Sent 200 b))) → self ∨ admin) ∧
  ((∃ w' b, updateUser req w = (w', Done (Sent 200 b))) → self ∨ admin) ∧
  ((∃ w' b, getUserIssues req w = (w', Done (Sent 200 b))) →
     self ∨ admin ∨ official) ∧
  (¬ (self ∨ admin) →
     getUserById req w =
       (w, Done (Sent 403 (JError "Not authorized to view this user"))) ∧
     updateUser req w =
       (w, Done (Sent 403 (JError "Not authorized to update this user")))) ∧
  (¬ (self ∨ admin ∨ official) →
     getUserIssues req w =
       (w, Done (Sent 403 (JError "Not authorized to view this user's issues")))) ∧
  (official → ¬ self → is_Some (users (w_db w) !! params_id req) →
     (∃ rows, getUserIssues req w =
                (w, Done (Sent 200 (JIssuesOf (length rows) rows)))) ∧
     getUserById req w =
       (w, Done (Sent 403 (JError "Not authorized to view this user")))).
Proof.
  intros Hu self admin official. subst self admin official.
  rewrite getUserById_unfold, updateUser_unfold, getUserIssues_unfold, Hu.
  cbv zeta. split_and!.
  - intros (w' & b & H). revert H.
    repeat case_bool_decide; cbn; try discriminate; intros _;
      destruct (decide (params_id req = req_id actor)); tauto.
  - intros (w' & b & H). revert H.
    repeat case_bool_decide; cbn; try discriminate; intros _;
      destruct (decide (params_id req = req_id actor)); tauto.
  - intros (w' & b & H). revert H.
    repeat case_bool_decide; cbn; try discriminate; intros _;
      destruct (decide (params_id req = req_id actor)); tauto.
  - intros Hn. repeat case_bool_decide; cbn; try done; exfalso; tauto.
  - intros Hn. repeat case_bool_decide; cbn; try done; exfalso; tauto.
  - intros Ho Hns [u' Hu'].
    rewrite Ho, Hu'. rewrite (bool_decide_eq_true_2 _ Hns). cbn.
    split; [by eexists | done].
Qed.

(** Bob, an official, may list Alice's issues but not open her profile. *)
Lemma user_access_witness :
  (∃ rows, getUserIssues (Demo.by_ Demo.bob "u1" emptyBody) Demo.world =
             (Demo.world, Done (Sent 200 (JIssuesOf 1 rows))) ∧
           rows = [(Demo.pothole, 2%nat)]) ∧
  getUserById (Demo.by_ Demo.bob "u1" emptyBody) Demo.world =
    (Demo.world, Done (Sent 403 (JError "Not authorized to view this user"))).
Proof.
  destruct (user_access (Demo.by_ Demo.bob "u1" emptyBody) Demo.world
              (mkReqUser "u2" "bob@city.org" "Bob" "OFFICIAL") eq_refl)
    as (_ & _ & _ & _ & _ & H).
  destruct H as [[rows Hrows] Hprofile];
    [reflexivity | discriminate | by eexists |].
  split; [|exact Hprofile].
  pose proof Hrows as Hc. vm_compute in Hc. injection Hc as _ <-.
  eexists. split; [exact Hrows | reflexivity].
Defined.


Lemma updateUserRole_invalid req w :
  includes ["CITIZEN"; "OFFICIAL"; "ADMIN"] (body_role (body req)) = false →
  updateUserRole req w = (w, Done (Sent 400 (JError "Invalid role"))).
Proof. intros H. rewrite updateUserRole_unfold. cbv zeta. by rewrite H. Qed.


(** X10.  Changing a role: a role that is absent or not one of CITIZEN,
    OFFICIAL, ADMIN is answered 400 before the user is looked up, so also
    for a user that does not exist; a valid role for a missing user is
    answered 404; otherwise the answer is 200, the addressed user has the new
    role and keeps id, name, email, password and picture, and no other row
    of any table changes.  Nothing is written unless the answer is 200. *)
Theorem updateUserRole_contract (req : Request) (w : World) :
  let valid := ∃ r, body_role (body req) = Some r ∧
                    r ∈ ["CITIZEN"; "OFFICIAL"; "ADMIN"] in
  (¬ valid → updateUserRole req w = (w, Done (Sent 400 (JError "Invalid role")))) ∧
  (valid → users (w_db w) !! params_id req = None →
     updateUserRole req w = (w, Done (Sent 404 (JError "User not found")))) ∧
  (∀ r old, body_role (body req) = Some r →
     r ∈ ["CITIZEN"; "OFFICIAL"; "ADMIN"] →
     users (w_db w) !! params_id req = Some old →
     let new := mkUser (user_id old) (user_name old) (user_email old)
                       (user_password old) r (user_profilePicture old) in
     updateUserRole req w =
       (mkWorld (mkDb (<[params_id req := new]> (users (w_db w)))
                      (issues (w_db w)) (comments (w_db w)))
                (w_now w) (w_trace w ++ [UserWritten (params_id req)]),
        Done (Sent 200 (JUser (Prisma.publicUser new) None None)))).
Proof.
  cbv zeta. split_and!.
  - intros Hn. apply updateUserRole_invalid.
    destruct (body_role (body req)) as [r|]; [|done]. cbn.
    apply bool_decide_eq_false. intros Hr. apply Hn. eauto.
  - intros (r & Hr & Hin) Hu. rewrite updateUserRole_unfold. cbv zeta.
    rewrite Hr. cbn [includes]. rewrite (bool_decide_eq_true_2 _ Hin).
    cbn [negb]. by rewrite Hu.
  - intros r old Hr Hin Hu. rewrite updateUserRole_unfold. cbv zeta.
    rewrite Hr. cbn [includes]. rewrite (bool_decide_eq_true_2 _ Hin).
    cbn [negb]. by rewrite Hu.
Qed.

(** The administrator makes Carol an official; a misspelt role for a user
    that does not exist is answered 400. *)
Lemma updateUserRole_contract_witness :
  let promote r :=
    mkReqBody None None None None None None None None None None None (Some r) in
  (∃ w', updateUserRole (Demo.by_ Demo.root "u4" (promote "OFFICIAL")) Demo.world =
           (w', Done (Sent 200 (JUser
              (mkPublicUser "u4" "Carol" "carol@city.org" "OFFICIAL" None)
              None None))) ∧
         user_role <$> users (w_db w') !! "u4" = Some "OFFICIAL") ∧
  updateUserRole (Demo.by_ Demo.root "nobody" (promote "OFFICAL")) Demo.world =
    (Demo.world, Done (Sent 400 (JError "Invalid role"))).
Proof.
  cbv zeta.
  destruct (updateUserRole_contract
              (Demo.by_ Demo.root "u4"
                 (mkReqBody None None None None None None None None None None
                            None (Some "OFFICIAL"))) Demo.world)
    as (_ & _ & Hok).
  specialize (Hok "OFFICIAL" Demo.carol eq_refl).
  split.
  - eexists. split.
    + apply Hok; [in_enum | reflexivity].
    + reflexivity.
  - apply (updateUserRole_contract
             (Demo.by_ Demo.root "nobody"
                (mkReqBody None None None None None None None None None None
                           None (Some "OFFICAL"))) Demo.world).
    intros (r & [= <-] & Hin). not_in_enum Hin.
Defined.

(** X11.  The admin gate after authentication: a request the authentication
    middleware ends is answered as it ended it (401 comes before 403); an
    authenticated user who is not ADMIN is answered 403 and the next
    function is not entered; an ADMIN reaches it with [req.user] set.  The
    gate writes nothing. *)
Theorem admin_gate
    (verify : Verifier) (next : Middleware) (req : Request) (w : World) :
  let chain := route [authMiddleware verify; adminMiddleware; next] in
  (∀ o, authMiddleware verify req w = (w, Done o) → chain req w = (w, Done o)) ∧
  (∀ u, authMiddleware verify req w = (w, Continue (attach u req)) →
     chain req w =
       if bool_decide (user_role u = "ADMIN") then next (attach u req) w
       else (w, Done (Sent 403 (JError "Not authorized. Admin access required")))).
Proof.
  cbv zeta. rewrite route_three. split.
  - by intros o ->.
  - intros u ->. unfold adminMiddleware. cbn [attach user req_role].
    destruct (decide (user_role u = "ADMIN")) as [Ha|Hn].
    + rewrite (bool_decide_eq_true_2 _ Ha).
      rewrite bool_decide_eq_false_2 by tauto. by destruct (next _ _) as [? []].
    + rewrite (bool_decide_eq_false_2 _ Hn). by rewrite bool_decide_eq_true_2.
Qed.

(** Alice cannot make herself an administrator. *)
Lemma admin_gate_witness :
  route [authMiddleware Demo.verify; adminMiddleware; updateUserRole]
    (incoming (Some "Bearer tok-u1") "u1" emptyQuery
       (mkReqBody None None None None None None None None None None None
                  (Some "ADMIN")))
    Demo.world =
  (Demo.world, Done (Sent 403 (JError "Not authorized. Admin access required"))).
Proof.
  destruct (admin_gate Demo.verify updateUserRole
              (incoming (Some "Bearer tok-u1") "u1" emptyQuery
                 (mkReqBody None None None None None None None None None None None
                            (Some "ADMIN")))
              Demo.world) as [_ H].
  exact (H Demo.alice eq_refl).
Defined.

(** X12.  An error of the token verifier that is neither a
    [JsonWebTokenError] nor a [TokenExpiredError] does not become a 401: the
    middleware hands that very error to the error handler, enters nothing
    and writes nothing. *)
Theorem authMiddleware_other_errors
    (verify : Verifier) (next : Middleware) (req : Request) (w : World)
    (h t : string) (e : Error) :
  headers_authorization req = Some h →
  String.prefix "Bearer " h = true →
  split " " h !! 1%nat = Some t →
  verify t = inl e →
  error_name e ≠ "JsonWebTokenError" →
  error_name e ≠ "TokenExpiredError" →
  route [authMiddleware verify; next] req w = (w, Done (NextError e)).
Proof.
  intros Hh Hp Ht He Hn1 Hn2.
  rewrite route_guard, authMiddleware_unfold, Hh.
  destruct (bearer_token h Hp) as (rest & ? & ? & Hrest & _ & _).
  rewrite bool_decide_eq_false_2 by by rewrite Hrest.
  rewrite Hp, Ht, He. cbn [negb orb]. unfold authCatch.
  by rewrite !bool_decide_eq_false_2.
Qed.

(** A token that is not valid yet. *)
Lemma authMiddleware_other_errors_witness :
  let notYet := mkError "NotBeforeError" "jwt not active" in
  route [authMiddleware (λ _, inl notYet); upvoteIssue]
    (incoming (Some "Bearer early") "i1" emptyQuery emptyBody) Demo.world =
  (Demo.world, Done (NextError notYet)).
Proof.
  cbv zeta.
  apply (authMiddleware_other_errors _ _ _ _ "Bearer early" "early");
    try reflexivity; discriminate.
Defined.

(** X13.  Referential integrity is kept by everything the service does: in
    every world it can reach, each comment is stored under its id and refers
    to a stored issue and a stored author, and each issue is stored under its
    id, has a stored reporter and a category of the enum.  In particular no
    comment outlives its issue. *)
Theorem database_integrity (w : World) :
  reachable w →
  (∀ k c, comments (w_db w) !! k = Some c →
     comment_id c = k ∧
     is_Some (issues (w_db w) !! comment_issueId c) ∧
     is_Some (users (w_db w) !! comment_authorId c)) ∧
  (∀ k i, issues (w_db w) !! k = Some i →
     issue_id i = k ∧
     is_Some (users (w_db w) !! issue_reporterId i) ∧
     issue_category i ∈ Prisma.Category).
Proof.
  intros [Huk Hik Hck Hre Hca Hsv Hcv]%reachable_wf. split.
  - intros k c Hc. destruct (Hca _ _ Hc). split_and!; eauto.
  - intros k i Hi. split_and!; eauto.
Qed.

Lemma database_integrity_witness :
  issue_id <$> issues (w_db Story.afterReport) !! "0" = Some "0" ∧
  ∃ i, issues (w_db Story.afterReport) !! "0" = Some i ∧
       is_Some (users (w_db Story.afterReport) !! issue_reporterId i).
Proof.
  assert (Hreach : reachable Story.afterReport).
  { unfold Story.afterReport.
    apply (reach_step Demo.verify Demo.delivering);
      [apply post_issues_endpoint | apply reach_start, demo_usersKeyed]. }
  destruct (database_integrity _ Hreach) as [_ Hissues].
  destruct (Hissues "0"
              (mkIssue "0" "Pothole" "Big pothole on 5th" "5th Ave" None None
                       "ROADS" "REPORTED" 0 [] "u1" 0) eq_refl)
    as (_ & Hreporter & _).
  split; [reflexivity|].
  eexists. split; [reflexivity|]. exact Hreporter.
Defined.





(** * Further properties of the list endpoint *)

#[local] Instance newer_transitive : Transitive Prisma.newer.
Proof. intros a b c. unfold Prisma.newer. lia. Qed.



(** What one page of the list shows, for a sound query. *)
Lemma issuesPage_window q p w :
  let limit := default 10 (q_limit q) in
  let f := Prisma.mkIssueWhere (filterKey (q_status q)) (filterKey (q_category q)) in
  1 ≤ p → 1 ≤ limit →
  Prisma.enumOk Prisma.Status (Prisma.where_status f) = true →
  Prisma.enumOk Prisma.Category (Prisma.where_category f) = true →
  issuesPage q p w =
    take (Z.to_nat limit)
         (drop (Z.to_nat (p - 1) * Z.to_nat limit) (Prisma.selected f (w_db w))).
Proof.
  intros limit f Hp Hl Hs Hc. unfold issuesPage.
  rewrite getAllIssues_unfold. cbv zeta.
  cbn [query incoming q_status q_category q_page q_limit default from_option id].
  fold limit f. rewrite Hs, Hc. cbn [andb negb].
  rewrite (proj2 (Z.ltb_ge _ 0)) by nia.
  rewrite row_issue_row. unfold Prisma.window.
  rewrite (proj2 (Z.leb_le 0 limit)) by lia.
  do 2 f_equal. rewrite Z2Nat.inj_mul by lia. done.
Qed.



(** * The client's pagination helpers *)

Lemma getPaginationInfo_unfold (total : nat) (page size : Z) :
  1 ≤ size →
  ∃ pages,
    (pages - 1) * size < Z.of_nat total ≤ pages * size ∧
    let valid := Z.max 1 (Z.min page (Z.max 1 pages)) in
    getPaginationInfo total (Some page) (Some size) =
      mkPaginationInfo total valid size (Num pages) ((valid - 1) * size)
        (Z.min ((valid - 1) * size + size - 1) (Z.of_nat total - 1))
        (valid <? pages) (valid >? 1).
Proof.
  intros Hsize.
  destruct (ceil_div_positive total size Hsize) as (pages & Hceil & Hb).
  exists pages. split; [done|]. cbv zeta. unfold getPaginationInfo.
  cbn [default from_option id]. rewrite Hceil.
  assert (Hvalid :
    Z.max 1 (match orOne (Num pages) with
             | Num t => Z.min page t
             | _ => page
             end) = Z.max 1 (Z.min page (Z.max 1 pages))).
  { unfold orOne. destruct pages as [|p|p]; cbn; lia. }
  by rewrite Hvalid.
Qed.

(** The index window of a non-empty collection. *)
Lemma getPaginationInfo_window (total : nat) (page size : Z) :
  1 ≤ size →
  let info := getPaginationInfo total (Some page) (Some size) in
  ∃ pages,
    totalPages info = Num pages ∧
    (pages - 1) * size < Z.of_nat total ≤ pages * size ∧
    (1 ≤ page ≤ pages → currentPage info = page) ∧
    startIndex info = (currentPage info - 1) * size ∧
    ((0 < total)%nat →
       0 ≤ startIndex info ≤ endIndex info ∧ endIndex info < Z.of_nat total ∧
       endIndex info - startIndex info + 1 ≤ size ∧
       (currentPage info < pages → endIndex info - startIndex info + 1 = size) ∧
       (currentPage info = pages → endIndex info = Z.of_nat total - 1)).
Proof.
  intros Hsize info.
  destruct (getPaginationInfo_unfold total page size Hsize) as (pages & Hb & Hinfo).
  exists pages. subst info. rewrite Hinfo. clear Hinfo. cbv zeta.
  cbn [totalPages currentPage startIndex endIndex].
  set (valid := Z.max 1 (Z.min page (Z.max 1 pages))).
  assert (Hv : 1 ≤ valid ≤ Z.max 1 pages) by (subst valid; lia).
  split_and!; try done; try lia.
  intros Ht. assert (Hp1 : 1 ≤ pages) by nia.
  assert (Hvp : valid ≤ pages) by lia. clearbody valid.
  destruct (Z.min_spec ((valid - 1) * size + size - 1) (Z.of_nat total - 1))
    as [[? ->]|[? ->]]; split_and!; try nia.
Qed.

(** X17.  [getPaginationInfo] for a page size of at least 1: [totalPages] is
    the ceiling of [totalItems / itemsPerPage]; the current page is clamped
    into 1 .. max(1, totalPages) and kept when it is in range; on a non-empty
    collection the index window lies inside 0 .. totalItems - 1, holds at
    most [itemsPerPage] items, exactly that many before the last page, and
    ends at the last item on the last page; on an empty collection the page
    is 1 and the window is the empty range 0 .. -1; [hasNextPage] and
    [hasPrevPage] say whether the clamped page is before the last or after
    the first. *)
Theorem getPaginationInfo_bounds (total : nat) (page size : Z) :
  1 ≤ size →
  let info := getPaginationInfo total (Some page) (Some size) in
  ∃ pages,
    totalPages info = Num pages ∧
    (pages - 1) * size < Z.of_nat total ≤ pages * size ∧
    1 ≤ currentPage info ≤ Z.max 1 pages ∧
    (1 ≤ page ≤ pages → currentPage info = page) ∧
    startIndex info = (currentPage info - 1) * size ∧
    ((0 < total)%nat →
       0 ≤ startIndex info ≤ endIndex info ∧ endIndex info < Z.of_nat total ∧
       endIndex info - startIndex info + 1 ≤ size ∧
       (currentPage info < pages → endIndex info - startIndex info + 1 = size) ∧
       (currentPage info = pages → endIndex info = Z.of_nat total - 1)) ∧
    (total = 0%nat →
       currentPage info = 1 ∧ startIndex info = 0 ∧ endIndex info = -1) ∧
    (hasNextPage info = true ↔ currentPage info < pages) ∧
    (hasPrevPage info = true ↔ 1 < currentPage info).
Proof.
  intros Hsize info.
  destruct (getPaginationInfo_window total page size Hsize)
    as (pages & Htp & Hb & Hkeep & Hstart & Hwin).
  fold info in Htp, Hkeep, Hstart, Hwin.
  destruct (getPaginationInfo_unfold total page size Hsize)
    as (pages' & _ & Hinfo).
  fold info in Hinfo. cbv zeta in Hinfo.
  assert (pages' = pages) as ->.
  { rewrite Hinfo in Htp. cbn in Htp. congruence. }
  assert (Hcur : currentPage info = Z.max 1 (Z.min page (Z.max 1 pages)))
    by (by rewrite Hinfo).
  assert (Hnext : hasNextPage info = (currentPage info <? pages))
    by (by rewrite Hinfo).
  assert (Hprev : hasPrevPage info = (currentPage info >? 1))
    by (by rewrite Hinfo).
  assert (Hend : endIndex info =
                 Z.min (startIndex info + size - 1) (Z.of_nat total - 1))
    by (by rewrite Hinfo).
  exists pages. split_and!; try done; try lia.
  - intros ->. assert (pages = 0) by nia. lia.
  - rewrite Hnext. apply Z.ltb_lt.
  - rewrite Hprev. lia.
Qed.

(** Scenario D of the spec on the client: 12 items, page 2 of 5 per page. *)
Lemma getPaginationInfo_bounds_witness :
  getPaginationInfo 12 (Some 2) (Some 5) =
    mkPaginationInfo 12 2 5 (Num 3) 5 9 true true ∧
  currentPage (getPaginationInfo 12 (Some 7) (Some 5)) = 3 ∧
  endIndex (getPaginationInfo 12 (Some 7) (Some 5)) = 11.
Proof.
  split; [reflexivity|].
  destruct (getPaginationInfo_bounds 12 7 5 ltac:(lia))
    as (pages & Htp & _ & _ & _ & _ & Hwin & _).
  injection Htp as <-.
  split; [reflexivity|].
  apply Hwin; [lia | reflexivity].
Defined.

(** X18.  The client's index window and the server's page agree: for a limit
    of at least 1, sound filters and a page within 1 .. totalPages, the
    issues the list endpoint returns for that page are exactly the matching
    issues at the indices [startIndex] .. [endIndex] that [getPaginationInfo]
    computes from the total, and [startIndex] is the server's [skip]; the
    windows of consecutive pages follow each other without gap or overlap.
    For a page beyond the last they part ways: the helper describes the last
    page, the server returns nothing. *)
Theorem client_window_matches_server (q : Query) (w : World) (p pages : Z) :
  let limit := default 10 (q_limit q) in
  let f := Prisma.mkIssueWhere (filterKey (q_status q)) (filterKey (q_category q)) in
  let matching := Prisma.selected f (w_db w) in
  let info p := getPaginationInfo (length matching) (Some p) (Some limit) in
  1 ≤ limit →
  Prisma.enumOk Prisma.Status (Prisma.where_status f) = true →
  Prisma.enumOk Prisma.Category (Prisma.where_category f) = true →
  totalPages (info p) = Num pages →
  (1 ≤ p ≤ pages →
     startIndex (info p) = (p - 1) * limit ∧
     issuesPage q p w =
       take (Z.to_nat (endIndex (info p) - startIndex (info p) + 1))
            (drop (Z.to_nat (startIndex (info p))) matching) ∧
     Z.of_nat (length (issuesPage q p w)) =
       endIndex (info p) - startIndex (info p) + 1) ∧
  (1 ≤ p < pages → startIndex (info (p + 1)) = endIndex (info p) + 1) ∧
  (1 ≤ pages < p →
     issuesPage q p w = [] ∧ currentPage (info p) = pages).
Proof.
  intros limit f matching info Hl Hs Hc Htp.
  destruct (getPaginationInfo_window (length matching) p limit Hl)
    as (pages' & Htp' & Hb & Hkeep & Hstart & Hwin).
  fold (info p) in Htp', Hkeep, Hstart, Hwin.
  rewrite Htp in Htp'. injection Htp' as <-.
  split_and!.
  - intros Hin. specialize (Hkeep Hin).
    assert (Hpos : (0 < length matching)%nat) by nia.
    destruct (Hwin Hpos) as (Hse & Hend & Hle & Hfull & Hlast).
    rewrite Hkeep in *.
    assert (Hpage : issuesPage q p w =
      take (Z.to_nat (endIndex (info p) - startIndex (info p) + 1))
           (drop (Z.to_nat (startIndex (info p))) matching)).
    { rewrite issuesPage_window by (done || lia). fold limit f matching.
      replace (Z.to_nat (p - 1) * Z.to_nat limit)%nat
        with (Z.to_nat (startIndex (info p)))
        by (rewrite Hstart, Z2Nat.inj_mul; lia).
      destruct (decide (p = pages)) as [->|Hne].
      - rewrite !take_ge; [done | rewrite length_drop; nia..].
      - by rewrite Hfull by lia. }
    split; [done|]. split; [done|].
    rewrite Hpage, length_take, length_drop. nia.
  - intros Hin.
    destruct (getPaginationInfo_window (length matching) (p + 1) limit Hl)
      as (pages' & Htp' & _ & Hkeep' & Hstart' & _).
    fold (info (p + 1)) in Htp', Hkeep', Hstart'.
    assert (pages' = pages) as ->.
    { revert Htp' Htp. unfold info, getPaginationInfo. cbn. congruence. }
    assert (Hpos : (0 < length matching)%nat) by nia.
    destruct (Hwin Hpos) as (_ & _ & _ & Hfull & _).
    rewrite Hkeep in * by lia. rewrite Hkeep' in * by lia. lia.
  - intros Hbeyond. split.
    + rewrite issuesPage_window by (done || lia). fold limit f matching.
      rewrite drop_ge by nia. apply take_nil.
    + unfold info, getPaginationInfo in Htp |- *. cbn in Htp |- *.
      rewrite Htp. unfold orOne. destruct pages; cbn; lia.
Qed.

Lemma client_window_matches_server_witness :
  let q := mkQuery None None None (Some 1) in
  let info := getPaginationInfo 2 (Some 2) (Some 1) in
  (startIndex info, endIndex info) = (1, 1) ∧
  issuesPage q 2 Demo.world = [Demo.pothole] ∧
  Z.of_nat (length (issuesPage q 2 Demo.world)) =
    endIndex info - startIndex info + 1.
Proof.
  cbv zeta.
  destruct (client_window_matches_server (mkQuery None None None (Some 1))
              Demo.world 2 2) as [H _];
    [cbn; lia | reflexivity | reflexivity | reflexivity |].
  destruct H as (_ & _ & Hlen); [lia|].
  split; [reflexivity|]. split; [reflexivity|]. exact Hlen.
Defined.

(** ** The page bar *)









